(** * Execution-client manager of the smartnode: dispatch, failover and health checks

    A shallow embedding of [ExecutionClientManager] (package [services]):
    [runFunction], [isDisconnected], [CheckStatus] and [checkClientStatus].

    The Go code talks to the network, to the wall clock and to a logger.
    Those effects are threaded explicitly: the network and the clock are an
    abstract world which every remote call may read and change, and every
    remote call and every logged line is recorded, in order, in a trace.

    Beyond the manager the file covers its exported operations and its
    constructor, the quoted big integers and Merkle proofs of package
    [rewards], and [configureService] and [configureChain] of the command
    line. *)

From Stdlib Require Import String Ascii List ZArith Bool Lia.
From Stdlib Require Import SpecFloat.
From Stdlib Require DecimalString DecimalFacts DecimalN DecimalZ.
Import ListNotations.

Local Open Scope string_scope.
Local Open Scope list_scope.
Local Open Scope Z_scope.

(** ** The part of Go's [strings] package the manager uses *)

Module strings.

Local Open Scope string_scope.

(** [HasPrefix s prefix] tests whether [s] begins with [prefix]. *)
Fixpoint HasPrefix (s prefix : string) {struct prefix} : bool :=
  match prefix with
  | EmptyString => true
  | String c prefix' =>
      match s with
      | EmptyString => false
      | String d s' => if Ascii.eqb d c then HasPrefix s' prefix' else false
      end
  end.

(** [Contains s substr] reports whether [substr] is within [s]: it is
    found at offset 0 or somewhere in the tail. *)
Fixpoint Contains (s substr : string) : bool :=
  if HasPrefix s substr then true
  else match s with
       | EmptyString => false
       | String _ s' => Contains s' substr
       end.

(** Whether the byte [c] is one of the bytes of [cutset]. *)
Fixpoint in_cutset (c : ascii) (cutset : string) : bool :=
  match cutset with
  | EmptyString => false
  | String d cutset' => if Ascii.eqb c d then true else in_cutset c cutset'
  end.

(** [TrimLeft s cutset] drops the leading bytes of [s] that are in
    [cutset]; [TrimRight] the trailing ones; [Trim] does both. The cutsets
    used are ASCII, for which Go's code points are single bytes. *)
Fixpoint TrimLeft (s cutset : string) : string :=
  match s with
  | EmptyString => EmptyString
  | String c s' => if in_cutset c cutset then TrimLeft s' cutset else s
  end.

Fixpoint TrimRight (s cutset : string) : string :=
  match s with
  | EmptyString => EmptyString
  | String c s' =>
      match TrimRight s' cutset with
      | EmptyString => if in_cutset c cutset then EmptyString else String c EmptyString
      | t => String c t
      end
  end.

Definition Trim (s cutset : string) : string :=
  TrimRight (TrimLeft s cutset) cutset.

(** No byte of [s] is in [cutset]. *)
Fixpoint free_of (s cutset : string) : bool :=
  match s with
  | EmptyString => true
  | String c s' => negb (in_cutset c cutset) && free_of s' cutset
  end.

End strings.

(** ** [float64]: IEEE 754 binary64, as far as the sync progress needs it *)

Module float64.

Definition prec : Z := 53.
Definition emax : Z := 1024.

Definition t : Type := spec_float.

Definition zero : t := S754_zero false.
Definition one : t := S754_finite false 4503599627370496 (-52).

(** The conversion [float64(n)] of an unsigned integer: the nearest
    representable value, ties to even. *)
Definition of_uint64 (n : Z) : t := binary_normalize prec emax n 0 false.

Definition div (x y : t) : t := SFdiv prec emax x y.

(** [x > y], [x <= y] and [math.IsNaN]. *)
Definition gt (x y : t) : bool := SFltb y x.
Definition le (x y : t) : bool := SFleb x y.
Definition IsNaN (x : t) : bool :=
  match x with S754_nan => true | _ => false end.

(** [x] is a number (not a NaN) whose sign bit is [s]. *)
Definition signed_as (s : bool) (x : t) : Prop :=
  match x with
  | S754_zero s' | S754_infinity s' | S754_finite s' _ _ => s' = s
  | S754_nan => False
  end.

End float64.

(** ** The structures of the [ethereum] and [api] packages that are used *)

Module ethereum.

(** The two counters of [ethereum.SyncProgress] the manager reads, both
    [uint64]. *)
Record SyncProgress : Type := {
  CurrentBlock : Z;
  HighestBlock : Z
}.

End ethereum.

Module api.

Record ExecutionClientStatus : Type := {
  IsWorking : bool;
  IsSynced : bool;
  SyncProgress : float64.t;
  Error : string
}.

Record ExecutionClientManagerStatus : Type := {
  PrimaryEcStatus : ExecutionClientStatus;
  FallbackEnabled : bool;
  FallbackEcStatus : ExecutionClientStatus
}.

(** Go's zero value of the status struct. *)
Definition zeroStatus : ExecutionClientStatus :=
  {| IsWorking := false; IsSynced := false;
     SyncProgress := float64.zero; Error := EmptyString |}.

(** Field assignments. *)
Definition set_IsWorking (b : bool) (st : ExecutionClientStatus) :=
  {| IsWorking := b; IsSynced := IsSynced st;
     SyncProgress := SyncProgress st; Error := Error st |}.
Definition set_IsSynced (b : bool) (st : ExecutionClientStatus) :=
  {| IsWorking := IsWorking st; IsSynced := b;
     SyncProgress := SyncProgress st; Error := Error st |}.
Definition set_SyncProgress (x : float64.t) (st : ExecutionClientStatus) :=
  {| IsWorking := IsWorking st; IsSynced := IsSynced st;
     SyncProgress := x; Error := Error st |}.
Definition set_Error (msg : string) (st : ExecutionClientStatus) :=
  {| IsWorking := IsWorking st; IsSynced := IsSynced st;
     SyncProgress := SyncProgress st; Error := msg |}.
Definition set_PrimaryEcStatus (st : ExecutionClientStatus)
    (status : ExecutionClientManagerStatus) :=
  {| PrimaryEcStatus := st; FallbackEnabled := FallbackEnabled status;
     FallbackEcStatus := FallbackEcStatus status |}.
Definition set_FallbackEcStatus (st : ExecutionClientStatus)
    (status : ExecutionClientManagerStatus) :=
  {| PrimaryEcStatus := PrimaryEcStatus status;
     FallbackEnabled := FallbackEnabled status; FallbackEcStatus := st |}.

End api.

(** The range of a Go [uint64]. *)
Definition uint64 (n : Z) : Prop := 0 <= n < 2 ^ 64.

(** A non-nil Go [error]: one made by [fmt.Errorf] in this package, or one
    handed over by the client library, whose errors are the type [E]. *)
Inductive error_of (E : Type) : Type :=
| Errorf (msg : string)
| ClientError (e : E).

Arguments Errorf {E} msg.
Arguments ClientError {E} e.

(** A Go pointer: [None] is [nil]. *)
Definition ptr (A : Type) : Type := option A.

Definition isNil {A : Type} (x : ptr A) : bool :=
  match x with None => true | Some _ => false end.

(** ** What the manager takes from outside

    The client library, the clock and the staleness check of this package,
    [IsSyncWithinThreshold], whose body is not part of the sources at hand
    and is therefore taken as given. *)
Class Library : Type := {
  (* ethclient.Client; the manager holds pointers to two of them *)
  Client : Type;
  (* the values an interface{} result can carry *)
  Value : Type;
  (* the errors the client library raises, and their Error() text *)
  ClientErr : Type;
  message : ClientErr -> string;
  (* the outside world: the network behind the endpoints and the clock *)
  World : Type;
  (* time.Time, time.Duration with its %s rendering, and time.Since, which
     reads the clock *)
  Time : Type;
  Duration : Type;
  Duration_String : Duration -> string;
  time_Since : Time -> World -> Duration;
  (* the remote call client.SyncProgress(ctx); a nil progress means that no
     sync is running *)
  ethclient_SyncProgress :
    ptr Client -> World ->
    (ptr ethereum.SyncProgress * option (error_of ClientErr)) * World;
  (* IsSyncWithinThreshold(client): whether the latest block is recent
     enough, and the time of that block *)
  IsSyncWithinThreshold :
    ptr Client -> World -> (bool * Time * option (error_of ClientErr)) * World
}.

Section Manager.

Context `{L : Library}.

Definition error : Type := error_of ClientErr.

(** An [interface{}] value: [None] is [nil]. *)
Definition iface : Type := option Value.

(** The method [Error()] of an error. *)
Definition Error (err : error) : string :=
  match err with
  | Errorf msg => msg
  | ClientError e => message e
  end.

(** Everything the manager does to the outside, in the order it happens. *)
Inductive Event : Type :=
| Invoke (client : ptr Client)
| Printlnf (line : string)
| SyncProgressQuery (client : ptr Client)
| ThresholdQuery (client : ptr Client).

(** The logger field of the Go struct is not kept: what it prints goes to
    the trace. *)
Record ExecutionClientManager : Type := {
  primaryEcUrl : string;
  fallbackEcUrl : string;
  primaryEc : ptr Client;
  fallbackEc : ptr Client;
  primaryReady : bool;
  fallbackReady : bool;
  ignoreSyncCheck : bool
}.

Definition with_primaryReady (b : bool) (p : ExecutionClientManager) :=
  {| primaryEcUrl := primaryEcUrl p; fallbackEcUrl := fallbackEcUrl p;
     primaryEc := primaryEc p; fallbackEc := fallbackEc p;
     primaryReady := b; fallbackReady := fallbackReady p;
     ignoreSyncCheck := ignoreSyncCheck p |}.

Definition with_fallbackReady (b : bool) (p : ExecutionClientManager) :=
  {| primaryEcUrl := primaryEcUrl p; fallbackEcUrl := fallbackEcUrl p;
     primaryEc := primaryEc p; fallbackEc := fallbackEc p;
     primaryReady := primaryReady p; fallbackReady := b;
     ignoreSyncCheck := ignoreSyncCheck p |}.

(** *** State and the monad that threads it *)

Record State : Type := {
  mgr : ExecutionClientManager;
  world : World;
  trace : list Event
}.

Definition M (A : Type) : Type := State -> A * State.

Definition ret {A : Type} (a : A) : M A := fun s => (a, s).

Definition bind {A B : Type} (m : M A) (k : A -> M B) : M B :=
  fun s => let (a, s') := m s in k a s'.

Local Notation "x <- m ;; k" := (bind m (fun x => k))
  (at level 61, m at next level, right associativity).
Local Notation "m ;; k" := (bind m (fun _ => k))
  (at level 61, right associativity).

(** The receiver [p]. *)
Definition this : M ExecutionClientManager := fun s => (mgr s, s).

Definition assign (f : ExecutionClientManager -> ExecutionClientManager) : M unit :=
  fun s => (tt, {| mgr := f (mgr s); world := world s; trace := trace s |}).

Definition emit (ev : Event) : M unit :=
  fun s => (tt, {| mgr := mgr s; world := world s; trace := trace s ++ [ev] |}).

(** A step that only involves the outside world. *)
Definition remote {A : Type} (f : World -> A * World) : M A :=
  fun s => let (a, w) := f (world s) in
           (a, {| mgr := mgr s; world := w; trace := trace s |}).

(** *** [runFunction] and [isDisconnected] *)

(** The signature of a wrapped [ethclient.Client] function. *)
Definition clientFunction : Type :=
  ptr Client -> World -> (iface * option error) * World.

Definition isDisconnected (err : error) : bool :=
  strings.Contains (Error err) "dial tcp".

Definition invoke (function : clientFunction) (client : ptr Client)
  : M (iface * option error) :=
  emit (Invoke client) ;; remote (function client).

(** [runFunction] calls itself after it has given up on the primary; the
    recursion is on [fuel], and [None] is the answer of a run that used it
    all up. *)
Fixpoint runFunction_fuel (fuel : nat) (function : clientFunction)
  : M (option (iface * option error)) :=
  match fuel with
  | O => ret None
  | S fuel' =>
      p <- this ;;
      if primaryReady p then
        r <- invoke function (primaryEc p) ;;
        match snd r with
        | Some err =>
            if isDisconnected err then
              emit (Printlnf ("WARNING: Primary execution client disconnected ("
                                ++ Error err ++ "), using fallback...")%string) ;;
              assign (with_primaryReady false) ;;
              runFunction_fuel fuel' function
            else
              ret (Some (None, Some err))
        | None => ret (Some (fst r, None))
        end
      else if fallbackReady p then
        r <- invoke function (fallbackEc p) ;;
        match snd r with
        | Some err =>
            if isDisconnected err then
              emit (Printlnf ("WARNING: Fallback execution client disconnected ("
                                ++ Error err ++ ")")%string) ;;
              assign (with_fallbackReady false) ;;
              ret (Some (None, Some (Errorf "all execution clients failed")))
            else
              ret (Some (None, Some err))
        | None => ret (Some (fst r, None))
        end
      else
        ret (Some (None, Some (Errorf "no execution clients were ready")))
  end.

(** *** [checkClientStatus] and [CheckStatus] *)

(** The progress computed in the last branch of [checkClientStatus]. *)
Definition progressOf (progress : ethereum.SyncProgress) : float64.t :=
  let x := float64.div (float64.of_uint64 (ethereum.CurrentBlock progress))
                       (float64.of_uint64 (ethereum.HighestBlock progress)) in
  let x := if float64.gt x float64.one then float64.one else x in
  let x := if float64.IsNaN x then float64.zero else x in
  x.

Definition checkClientStatus (client : ptr Client) : M api.ExecutionClientStatus :=
  let status := api.zeroStatus in
  r <- (emit (SyncProgressQuery client) ;; remote (ethclient_SyncProgress client)) ;;
  match snd r with
  | Some err =>
      let status := api.set_Error
        ("Sync progress check failed with [" ++ Error err ++ "]")%string status in
      let status := api.set_IsWorking false status in
      ret status
  | None =>
      match fst r with
      | None =>
          t <- (emit (ThresholdQuery client) ;; remote (IsSyncWithinThreshold client)) ;;
          let '(isUpToDate, blockTime, err) := t in
          match err with
          | Some err =>
              let status := api.set_Error
                ("Error checking if client's sync progress is up to date: ["
                   ++ Error err ++ "]")%string status in
              let status := api.set_IsWorking false status in
              ret status
          | None =>
              let status := api.set_IsWorking true status in
              if negb isUpToDate then
                since <- remote (fun w => (time_Since blockTime w, w)) ;;
                let status := api.set_Error
                  ("Client claims to have finished syncing, but its last block was from "
                     ++ Duration_String since
                     ++ " ago. It likely doesn't have enough peers")%string status in
                let status := api.set_IsSynced false status in
                let status := api.set_SyncProgress float64.zero status in
                ret status
              else
                let status := api.set_IsSynced true status in
                ret status
          end
      | Some progress =>
          let status := api.set_IsWorking true status in
          let status := api.set_IsSynced false status in
          let status := api.set_SyncProgress (progressOf progress) status in
          ret status
      end
  end.

Definition CheckStatus : M api.ExecutionClientManagerStatus :=
  p <- this ;;
  let status :=
    {| api.PrimaryEcStatus := api.zeroStatus;
       api.FallbackEnabled := negb (isNil (fallbackEc p));
       api.FallbackEcStatus := api.zeroStatus |} in
  if ignoreSyncCheck p then
    let status := api.set_PrimaryEcStatus
      (api.set_IsWorking (primaryReady p) (api.PrimaryEcStatus status)) status in
    let status := api.set_PrimaryEcStatus
      (api.set_IsSynced (primaryReady p) (api.PrimaryEcStatus status)) status in
    let status :=
      if api.FallbackEnabled status then
        let status := api.set_FallbackEcStatus
          (api.set_IsWorking (fallbackReady p) (api.FallbackEcStatus status)) status in
        api.set_FallbackEcStatus
          (api.set_IsSynced (fallbackReady p) (api.FallbackEcStatus status)) status
      else status in
    ret status
  else
    st <- checkClientStatus (primaryEc p) ;;
    let status := api.set_PrimaryEcStatus st status in
    status <- (if api.FallbackEnabled status then
                 st <- checkClientStatus (fallbackEc p) ;;
                 ret (api.set_FallbackEcStatus st status)
               else ret status) ;;
    assign (with_primaryReady
              (api.IsWorking (api.PrimaryEcStatus status)
               && api.IsSynced (api.PrimaryEcStatus status))) ;;
    assign (with_fallbackReady
              (api.FallbackEnabled status
               && api.IsWorking (api.FallbackEcStatus status)
               && api.IsSynced (api.FallbackEcStatus status))) ;;
    ret status.

End Manager.

Arguments Invoke {L} client.
Arguments Printlnf {L} line.
Arguments SyncProgressQuery {L} client.
Arguments ThresholdQuery {L} client.

(** The handle [runFunction] turns to first, if any. *)
Definition selected `{L : Library} (p : ExecutionClientManager) : option (ptr Client) :=
  if primaryReady p then Some (primaryEc p)
  else if fallbackReady p then Some (fallbackEc p)
  else None.

(** The clients whose sync progress a stretch of the trace asks for. *)
Fixpoint probed `{L : Library} (evs : list Event) : list (ptr Client) :=
  match evs with
  | [] => []
  | SyncProgressQuery client :: evs' => client :: probed evs'
  | _ :: evs' => probed evs'
  end.

(** The handles a stretch of the trace runs the wrapped function on. *)
Fixpoint invoked `{L : Library} (evs : list Event) : list (ptr Client) :=
  match evs with
  | [] => []
  | Invoke client :: evs' => client :: invoked evs'
  | _ :: evs' => invoked evs'
  end.

(** The state after [function] has run on [client] and left the world [w]. *)
Definition after_call `{L : Library} (client : ptr Client) (w : World) (s : State) : State :=
  {| mgr := mgr s; world := w; trace := trace s ++ [Invoke client] |}.

(** The state after a disconnected primary has been logged and demoted. *)
Definition primary_demoted `{L : Library} (err : error) (w : World) (s : State) : State :=
  {| mgr := with_primaryReady false (mgr s);
     world := w;
     trace := trace s ++
       [Invoke (primaryEc (mgr s));
        Printlnf ("WARNING: Primary execution client disconnected ("
                    ++ Error err ++ "), using fallback...")%string] |}.

(** The state after a disconnected fallback has been logged and demoted. *)
Definition fallback_demoted `{L : Library} (err : error) (w : World) (s : State) : State :=
  {| mgr := with_fallbackReady false (mgr s);
     world := w;
     trace := trace s ++
       [Invoke (fallbackEc (mgr s));
        Printlnf ("WARNING: Fallback execution client disconnected ("
                    ++ Error err ++ ")")%string] |}.

(** The words "the message contains the substring dial tcp", said without
    reference to the search that [isDisconnected] runs. *)
Definition mentions_dial_tcp (msg : string) : Prop :=
  exists pre post : string, msg = (pre ++ "dial tcp" ++ post)%string.

(** ** A small network to run the manager on

    Two endpoints, each in one of five conditions; the world is the
    condition of each endpoint. *)

Module Lab.

Inductive endpoint : Type := Primary | Fallback.

Inductive condition : Type :=
| Down
| Syncing (current highest : Z)
| Stale
| NoHeader
| Healthy.

(** The results the closures below produce: a [uint64], or the two-element
    array that the closure of [TransactionByHash] builds. *)
Inductive value : Type :=
| Uint64 (n : Z)
| TxAndPending (tx : option Z) (isPending : bool).

Definition refused : string :=
  "Post http://eth1:8545: dial tcp 172.18.0.3:8545: connect: connection refused".

(** A node that is down refuses the connection; a syncing node reports its
    counters; the others report no sync in progress. *)
Definition syncProgress (client : ptr endpoint) (w : endpoint -> condition)
  : (ptr ethereum.SyncProgress * option (error_of string)) * (endpoint -> condition) :=
  match client with
  | None => ((None, Some (ClientError "no client")), w)
  | Some c =>
      match w c with
      | Down => ((None, Some (ClientError refused)), w)
      | Syncing cur high =>
          ((Some {| ethereum.CurrentBlock := cur; ethereum.HighestBlock := high |}, None), w)
      | _ => ((None, None), w)
      end
  end.

(** Only a stale node has an old latest block; a node without header
    cannot tell. *)
Definition withinThreshold (client : ptr endpoint) (w : endpoint -> condition)
  : (bool * Z * option (error_of string)) * (endpoint -> condition) :=
  match client with
  | None => ((false, 0, Some (ClientError "no client")), w)
  | Some c =>
      match w c with
      | Down => ((false, 0, Some (ClientError refused)), w)
      | Stale => ((false, 1700000000, None), w)
      | NoHeader => ((false, 0, Some (ClientError "header not found")), w)
      | _ => ((true, 1700000000, None), w)
      end
  end.

#[export] Instance lab : Library := {|
  Client := endpoint;
  Value := value;
  ClientErr := string;
  message := fun e => e;
  World := endpoint -> condition;
  Time := Z;
  Duration := Z;
  Duration_String := fun _ => "13m0s";
  time_Since := fun _ _ => 780;
  ethclient_SyncProgress := syncProgress;
  IsSyncWithinThreshold := withinThreshold
|}.

(** The closure of [BlockNumber]: every reachable node answers 12345. *)
Definition blockNumber : clientFunction :=
  fun client w =>
    match client with
    | None => ((None, Some (ClientError "no client")), w)
    | Some c =>
        match w c with
        | Down => ((None, Some (ClientError refused)), w)
        | _ => ((Some (Uint64 12345), None), w)
        end
    end.

(** The closure of [TransactionByHash]: it wraps the transaction and the
    pending bit in an array before it looks at the error, so its result is
    never nil. *)
Definition transactionByHash : clientFunction :=
  fun client w =>
    match client with
    | None => ((Some (TxAndPending None false), Some (ClientError "no client")), w)
    | Some c =>
        match w c with
        | Down => ((Some (TxAndPending None false), Some (ClientError refused)), w)
        | _ => ((Some (TxAndPending (Some 7) false), None), w)
        end
    end.

(** The closure of a contract call that the node rejects. *)
Definition callContract : clientFunction :=
  fun client w =>
    match client with
    | None => ((None, Some (ClientError "no client")), w)
    | Some c =>
        match w c with
        | Down => ((None, Some (ClientError refused)), w)
        | _ => ((None, Some (ClientError "execution reverted")), w)
        end
    end.

(** A manager with both endpoints configured, as the constructor leaves it
    but for the two flags. *)
Definition manager (primaryReady fallbackReady ignoreSyncCheck : bool)
  : ExecutionClientManager :=
  {| primaryEcUrl := "http://eth1:8545";
     fallbackEcUrl := "http://eth1-fallback:8545";
     primaryEc := Some Primary;
     fallbackEc := Some Fallback;
     primaryReady := primaryReady;
     fallbackReady := fallbackReady;
     ignoreSyncCheck := ignoreSyncCheck |}.

Definition net (primary fallback : condition) : endpoint -> condition :=
  fun c => match c with Primary => primary | Fallback => fallback end.

Definition start (p : ExecutionClientManager) (w : endpoint -> condition) : State :=
  {| mgr := p; world := w; trace := [] |}.

(** Both flags set, both nodes down. *)
Definition both_down : State := start (manager true true false) (net Down Down).

(** Both flags set, the primary down and the fallback healthy. *)
Definition primary_down : State := start (manager true true false) (net Down Healthy).

(** Both flags set, both nodes healthy. *)
Definition all_well : State := start (manager true true false) (net Healthy Healthy).

(** Only the fallback flag set, the fallback down. *)
Definition fallback_only_down : State :=
  start (manager false true false) (net Healthy Down).

(** No flag set, both nodes healthy. *)
Definition none_ready : State := start (manager false false false) (net Healthy Healthy).

(** As [none_ready], in the mode that skips the live check. *)
Definition none_ready_skip : State :=
  start (manager false false true) (net Healthy Healthy).

(** The primary half way through its sync. *)
Definition primary_syncing : State :=
  start (manager true true false) (net (Syncing 500 1000) Healthy).

(** The primary stale, the fallback unable to produce a header. *)
Definition stale_and_headerless : State :=
  start (manager true true false) (net Stale NoHeader).

End Lab.

(** ** One dispatch, as a relation

    [Dispatch function s out s'] holds when [runFunction], started in [s],
    returns [out] and leaves [s']. There is one rule per return statement of
    the Go function and one for the call it makes to itself. *)
Inductive Dispatch `{L : Library} (function : clientFunction)
  : State -> iface * option error -> State -> Prop :=
| Dispatch_primary_ok s r w :
    primaryReady (mgr s) = true ->
    function (primaryEc (mgr s)) (world s) = (r, None, w) ->
    Dispatch function s (r, None) (after_call (primaryEc (mgr s)) w s)
| Dispatch_primary_error s r err w :
    primaryReady (mgr s) = true ->
    function (primaryEc (mgr s)) (world s) = (r, Some err, w) ->
    isDisconnected err = false ->
    Dispatch function s (None, Some err) (after_call (primaryEc (mgr s)) w s)
| Dispatch_primary_disconnected s r err w out s' :
    primaryReady (mgr s) = true ->
    function (primaryEc (mgr s)) (world s) = (r, Some err, w) ->
    isDisconnected err = true ->
    Dispatch function (primary_demoted err w s) out s' ->
    Dispatch function s out s'
| Dispatch_fallback_ok s r w :
    primaryReady (mgr s) = false ->
    fallbackReady (mgr s) = true ->
    function (fallbackEc (mgr s)) (world s) = (r, None, w) ->
    Dispatch function s (r, None) (after_call (fallbackEc (mgr s)) w s)
| Dispatch_fallback_error s r err w :
    primaryReady (mgr s) = false ->
    fallbackReady (mgr s) = true ->
    function (fallbackEc (mgr s)) (world s) = (r, Some err, w) ->
    isDisconnected err = false ->
    Dispatch function s (None, Some err) (after_call (fallbackEc (mgr s)) w s)
| Dispatch_fallback_disconnected s r err w :
    primaryReady (mgr s) = false ->
    fallbackReady (mgr s) = true ->
    function (fallbackEc (mgr s)) (world s) = (r, Some err, w) ->
    isDisconnected err = true ->
    Dispatch function s
      (None, Some (Errorf "all execution clients failed"))
      (fallback_demoted err w s)
| Dispatch_none_ready s :
    primaryReady (mgr s) = false ->
    fallbackReady (mgr s) = false ->
    Dispatch function s
      (None, Some (Errorf "no execution clients were ready")) s.

(** What the constructor guarantees about the two handles, and what the
    manager relies on when it calls them: the primary handle is never nil,
    and the fallback handle is not nil whenever its flag is set. *)
Definition handles_ok `{L : Library} (p : ExecutionClientManager) : Prop :=
  isNil (primaryEc p) = false
  /\ (fallbackReady p = true -> isNil (fallbackEc p) = false).

(** Two managers that differ at most in their readiness flags. *)
Definition same_but_flags `{L : Library} (p q : ExecutionClientManager) : Prop :=
  primaryEcUrl p = primaryEcUrl q
  /\ fallbackEcUrl p = fallbackEcUrl q
  /\ primaryEc p = primaryEc q
  /\ fallbackEc p = fallbackEc q
  /\ ignoreSyncCheck p = ignoreSyncCheck q.

(** ** The exported operations

    Every exported operation wraps one method of the client library in a
    closure, hands it to [runFunction] and turns the untyped result back
    into the type of the method with a type assertion, which panics when
    the result is nil or holds another type. *)

(** How a call ends: it returns, it panics, or (for the embedding only) the
    fuel of [runFunction_fuel] ran out. *)
Inductive outcome (A : Type) : Type :=
| Returns (a : A)
| Panics
| OutOfFuel.

Arguments Returns {A} a.
Arguments Panics {A}.
Arguments OutOfFuel {A}.

(** The values of Go type [T] inside an [interface{}]: [box] is the
    conversion to [interface{}], [unbox] the type assertion on a non-nil
    interface value, which gives back what was converted. *)
Class Boxed (V T : Type) : Type := {
  box : T -> V;
  unbox : V -> option T;
  unbox_box : forall t : T, unbox (box t) = Some t
}.

(** The types and methods of the client library that the operations use.
    A slice is a list (nil is the empty list), a pointer may be nil, and
    [ethereum.Subscription], being an interface, may be nil as well. *)
Class Ethclient `{L : Library} : Type := {
  Ctx : Type;
  Address : Type;
  Hash : Type;
  BigInt : Type;
  CallMsg : Type;
  FilterQuery : Type;
  Header : Type;
  Transaction : Type;
  Receipt : Type;
  Log : Type;
  LogChan : Type;
  Subscription : Type;
  boxed_bytes :: Boxed Value (list Byte.byte);
  boxed_uint64 :: Boxed Value Z;
  boxed_bool :: Boxed Value bool;
  boxed_BigInt :: Boxed Value (ptr BigInt);
  boxed_Header :: Boxed Value (ptr Header);
  boxed_Transaction :: Boxed Value (ptr Transaction);
  boxed_Receipt :: Boxed Value (ptr Receipt);
  boxed_Logs :: Boxed Value (list Log);
  boxed_Subscription :: Boxed Value Subscription;
  boxed_SyncProgress :: Boxed Value (ptr ethereum.SyncProgress);
  boxed_array :: Boxed Value (list (option Value));
  client_CodeAt :
    ptr Client -> Ctx -> Address -> ptr BigInt -> World ->
    (list Byte.byte * option error) * World;
  client_CallContract :
    ptr Client -> Ctx -> CallMsg -> ptr BigInt -> World ->
    (list Byte.byte * option error) * World;
  client_HeaderByNumber :
    ptr Client -> Ctx -> ptr BigInt -> World ->
    (ptr Header * option error) * World;
  client_PendingCodeAt :
    ptr Client -> Ctx -> Address -> World ->
    (list Byte.byte * option error) * World;
  client_PendingNonceAt :
    ptr Client -> Ctx -> Address -> World -> (Z * option error) * World;
  client_SuggestGasPrice :
    ptr Client -> Ctx -> World -> (ptr BigInt * option error) * World;
  client_SuggestGasTipCap :
    ptr Client -> Ctx -> World -> (ptr BigInt * option error) * World;
  client_EstimateGas :
    ptr Client -> Ctx -> CallMsg -> World -> (Z * option error) * World;
  client_SendTransaction :
    ptr Client -> Ctx -> ptr Transaction -> World -> option error * World;
  client_FilterLogs :
    ptr Client -> Ctx -> FilterQuery -> World ->
    (list Log * option error) * World;
  client_SubscribeFilterLogs :
    ptr Client -> Ctx -> FilterQuery -> LogChan -> World ->
    (option Subscription * option error) * World;
  client_TransactionReceipt :
    ptr Client -> Ctx -> Hash -> World -> (ptr Receipt * option error) * World;
  client_BlockNumber :
    ptr Client -> Ctx -> World -> (Z * option error) * World;
  client_BalanceAt :
    ptr Client -> Ctx -> Address -> ptr BigInt -> World ->
    (ptr BigInt * option error) * World;
  client_TransactionByHash :
    ptr Client -> Ctx -> Hash -> World ->
    (ptr Transaction * bool * option error) * World;
  client_NonceAt :
    ptr Client -> Ctx -> Address -> ptr BigInt -> World ->
    (Z * option error) * World;
  client_SyncProgress :
    ptr Client -> Ctx -> World ->
    (ptr ethereum.SyncProgress * option error) * World
}.

Section Operations.

Context `{E : Ethclient}.

Local Notation "x <- m ;; k" := (bind m (fun x => k))
  (at level 61, m at next level, right associativity).

(** The type assertion [result.(T)]. *)
Definition assert_type {T : Type} `{Boxed Value T} (result : iface) : option T :=
  match result with
  | None => None
  | Some v => unbox v
  end.

(** The closure [func(client) (interface{}, error) { return client.M(...) }]
    for a method whose result has a concrete type: the result is converted
    to [interface{}], whatever the error is. *)
Definition closure {T : Type} `{Boxed Value T}
    (method : ptr Client -> World -> (T * option error) * World) : clientFunction :=
  fun client w =>
    let '(t, err, w') := method client w in
    (Some (box t), err, w').

(** The three lines every typed operation ends with:
    [if err != nil { return zero, err }; return result.(T), err]. *)
Definition typed {T : Type} `{Boxed Value T} (zero : T)
    (r : option (iface * option error)) : outcome (T * option error) :=
  match r with
  | None => OutOfFuel
  | Some (_, Some err) => Returns (zero, Some err)
  | Some (result, None) =>
      match assert_type result with
      | Some t => Returns (t, None)
      | None => Panics
      end
  end.











(** The result of [client.SubscribeFilterLogs] has an interface type, so a
    nil subscription becomes a nil [interface{}]; the assertion
    [result.(ethereum.Subscription)] then fails like any assertion on nil. *)
Definition SubscribeFilterLogs (fuel : nat) ctx query ch
  : M (outcome (option Subscription * option error)) :=
  r <- runFunction_fuel fuel
         (fun client w =>
            let '(sub, err, w') := client_SubscribeFilterLogs client ctx query ch w in
            (match sub with Some v => Some (box v) | None => None end, err, w')) ;;
  ret (match r with
       | None => OutOfFuel
       | Some (_, Some err) => Returns (None, Some err)
       | Some (result, None) =>
           match assert_type result with
           | Some v => Returns (Some v, None)
           | None => Panics
           end
       end).






Definition SyncProgress (fuel : nat) ctx
  : M (outcome (ptr ethereum.SyncProgress * option error)) :=
  r <- runFunction_fuel fuel
         (closure (fun client => client_SyncProgress client ctx)) ;;
  ret (typed None r).

End Operations.


(** ** The constructor *)

Module config.

(** [config.Mode]. Its declaration is not among the sources at hand; the
    constructor only compares a mode with [Mode_Local]. *)
Inductive Mode : Type := Mode_Local | Mode_External.

Definition Mode_eqb (a b : Mode) : bool :=
  match a, b with
  | Mode_Local, Mode_Local | Mode_External, Mode_External => true
  | _, _ => false
  end.

(** The settings of [config.RocketPoolConfig] that the constructor reads,
    each with the type its type assertion or its format verb expects. *)
Record RocketPoolConfig : Type := {
  IsNativeMode : bool;
  Native_EcHttpUrl : string;
  ExecutionClientMode : Mode;
  ExecutionCommon_HttpPort : N;
  ExternalExecution_HttpUrl : string;
  UseFallbackExecutionClient : bool;
  FallbackExecutionClientMode : Mode;
  FallbackExecutionCommon_HttpPort : N;
  FallbackExternalExecution_HttpUrl : string
}.

End config.

(** What the constructor takes from outside: [ethclient.Dial], which gives
    a client or an error, and the names of the two containers. *)
Class Dialer `{L : Library} : Type := {
  ethclient_Dial : string -> World -> (Client + error) * World;
  Eth1ContainerName : string;
  Eth1FallbackContainerName : string
}.

(** The verb [%d] on an unsigned number. *)
Definition Sprintf_d (n : N) : string :=
  DecimalString.NilZero.string_of_uint (N.to_uint n).

(** [fmt.Sprintf("http://%s:%d", name, port)]. *)
Definition containerUrl (name : string) (port : N) : string :=
  ("http://" ++ name ++ ":" ++ Sprintf_d port)%string.

Definition string_is_empty (s : string) : bool :=
  match s with EmptyString => true | String _ _ => false end.

Definition NewExecutionClientManager `{D : Dialer} (cfg : config.RocketPoolConfig)
    (w : World) : (ptr ExecutionClientManager * option error) * World :=
  (* Get the primary EC url *)
  let primaryEcUrl :=
    if config.IsNativeMode cfg then config.Native_EcHttpUrl cfg
    else if config.Mode_eqb (config.ExecutionClientMode cfg) config.Mode_Local
    then containerUrl Eth1ContainerName (config.ExecutionCommon_HttpPort cfg)
    else config.ExternalExecution_HttpUrl cfg in
  (* Get the fallback EC url, if applicable *)
  let fallbackEcUrl :=
    if config.UseFallbackExecutionClient cfg then
      if config.Mode_eqb (config.FallbackExecutionClientMode cfg) config.Mode_Local
      then containerUrl Eth1FallbackContainerName
             (config.FallbackExecutionCommon_HttpPort cfg)
      else config.FallbackExternalExecution_HttpUrl cfg
    else EmptyString in
  match ethclient_Dial primaryEcUrl w with
  | (inr err, w1) =>
      (None,
       Some (Errorf ("error connecting to primary EC at [" ++ primaryEcUrl
                       ++ "]: " ++ Error err)%string),
       w1)
  | (inl primaryEc, w1) =>
      let build (fallbackEc : ptr Client) :=
        Some {| primaryEcUrl := primaryEcUrl;
                fallbackEcUrl := fallbackEcUrl;
                primaryEc := Some primaryEc;
                fallbackEc := fallbackEc;
                primaryReady := true;
                fallbackReady := negb (isNil fallbackEc);
                ignoreSyncCheck := false |} in
      if negb (string_is_empty fallbackEcUrl) then
        match ethclient_Dial fallbackEcUrl w1 with
        | (inr err, w2) =>
            (None,
             Some (Errorf ("error connecting to fallback EC at [" ++ fallbackEcUrl
                             ++ "]: " ++ Error err)%string),
             w2)
        | (inl fallbackEc, w2) => (build (Some fallbackEc), None, w2)
        end
      else (build None, None, w1)
  end.

(** ** A manager in use

    What is done to a manager over its life: operations are dispatched and
    the status is refreshed, in any order. *)
Inductive action `{L : Library} : Type :=
| Call (function : clientFunction)
| Refresh.

Definition act `{L : Library} (a : action) (s : State) : State :=
  match a with
  | Call function => snd (runFunction_fuel 2 function s)
  | Refresh => snd (CheckStatus s)
  end.

Definition acts `{L : Library} (l : list action) (s : State) : State :=
  fold_left (fun s a => act a s) l s.

Definition is_call `{L : Library} (a : action) : bool :=
  match a with Call _ => true | Refresh => false end.

(** ** Package [rewards]: quoted big integers and Merkle proofs *)

Module rewards.

(** What the package takes from its libraries: the parser
    [big.Int.SetString(s, 0)], which gives the number and true or fails,
    the type [common.Hash] and [common.HexToHash]. *)
Class Library : Type := {
  SetString0 : string -> option Z;
  Hash : Type;
  HexToHash : string -> Hash
}.

(** The double quote. *)
Definition quote : string := String "034"%char EmptyString.

(** [big.Int.String]: the decimal digits, after a minus sign for a
    negative number. *)
Definition String_ (x : Z) : string :=
  DecimalString.NilZero.string_of_int (Z.to_int x).

(** A [QuotedBigInt] is a [big.Int]. *)
Definition QuotedBigInt : Type := Z.

Definition NewQuotedBigInt (x : Z) : QuotedBigInt := x.

Definition MarshalJSON (b : QuotedBigInt) : string * option (error_of Empty_set) :=
  ((quote ++ String_ b ++ quote)%string, None).

(** [UnmarshalJSON] returns the receiver as it leaves it, and the error. *)
Definition UnmarshalJSON `{Library} (b : QuotedBigInt) (p : string)
  : QuotedBigInt * option (error_of Empty_set) :=
  let strippedString := strings.Trim p quote in
  match SetString0 strippedString with
  | None =>
      (b, Some (Errorf (strippedString ++ " is not a valid big integer")%string))
  | Some nativeInt => (nativeInt, None)
  end.

(** The fields of [NodeRewardsInfo]; the amounts are pointers. *)
Record NodeRewardsInfo : Type := {
  RewardNetwork : Z;
  CollateralRpl : ptr QuotedBigInt;
  OracleDaoRpl : ptr QuotedBigInt;
  SmoothingPoolEth : ptr QuotedBigInt;
  MerkleData : list Byte.byte;
  MerkleProof : list string
}.

Definition GetRewardNetwork (i : NodeRewardsInfo) : Z := RewardNetwork i.
Definition GetCollateralRpl (i : NodeRewardsInfo) : ptr QuotedBigInt := CollateralRpl i.
Definition GetOracleDaoRpl (i : NodeRewardsInfo) : ptr QuotedBigInt := OracleDaoRpl i.
Definition GetSmoothingPoolEth (i : NodeRewardsInfo) : ptr QuotedBigInt :=
  SmoothingPoolEth i.

(** The loop appends the hash of each proof level to a slice that starts
    empty. *)
Definition GetMerkleProof `{Library} (n : NodeRewardsInfo)
  : list Hash * option (error_of Empty_set) :=
  (fold_left (fun proof proofLevel => proof ++ [HexToHash proofLevel])
             (MerkleProof n) [],
   None).

End rewards.

(** ** Package [config] of the command line: [configureService] and
    [configureChain] *)

Module cli.

(** The structures of [shared/services/config] as the two functions use
    them; their declarations are not among the sources at hand. *)
Record ClientParam : Type := {
  Name : string;
  Env : string;
  Required : bool;
  Regex : string
}.

Record ClientOption : Type := {
  ID : string;
  OptionName : string;
  OptionParams : list ClientParam
}.

Record UserParam : Type := {
  UserEnv : string;
  Value : string
}.

(** [chain.Client]: the options on offer, the one selected and the values
    the user gave for its parameters. *)
Record Chain : Type := {
  Options : list ClientOption;
  Selected : string;
  Params : list UserParam
}.

(** [RocketPoolConfig.Chains]. *)
Record RocketPoolConfig : Type := {
  Eth1 : Chain;
  Eth2 : Chain
}.

Definition zeroChain : Chain := {| Options := []; Selected := EmptyString; Params := [] |}.

Definition with_Selected (id : string) (chain : Chain) : Chain :=
  {| Options := Options chain; Selected := id; Params := Params chain |}.

Definition with_Params (params : list UserParam) (chain : Chain) : Chain :=
  {| Options := Options chain; Selected := Selected chain; Params := params |}.

(** What the two functions take from outside: the terminal
    ([cliutils.Select] gives the index and the name chosen,
    [cliutils.Prompt] the text entered), the service client [rp] with its
    three methods, and the method [GetSelectedClient] of a chain, which
    gives a pointer to an option or nil. *)
Class Terminal : Type := {
  Outside : Type;
  Context_ : Type;
  ServiceClient : Type;
  ServiceErr : Type;
  Select : string -> list string -> Outside -> (Z * string) * Outside;
  Prompt : string -> string -> string -> Outside -> string * Outside;
  GetSelectedClient : Chain -> ptr ClientOption;
  GetRocketPoolClient :
    Context_ -> Outside -> (ServiceClient + error_of ServiceErr) * Outside;
  LoadGlobalConfig :
    ServiceClient -> Outside ->
    (RocketPoolConfig * option (error_of ServiceErr)) * Outside;
  SaveUserConfig :
    ServiceClient -> RocketPoolConfig -> Outside ->
    option (error_of ServiceErr) * Outside;
  Close : ServiceClient -> Outside -> Outside
}.

Section Configure.

Context `{T : Terminal}.

Definition error : Type := error_of ServiceErr.

(** What the functions do to the outside, in order. *)
Inductive Event : Type :=
| Printed (text : string)
| Selecting (prompt : string) (options : list string)
| Prompting (prompt format invalid : string)
| Loading
| Saving (userConfig : RocketPoolConfig)
| Closing.

Record State : Type := {
  outside : Outside;
  events : list Event
}.

Definition C (A : Type) : Type := State -> A * State.

Definition ret {A : Type} (a : A) : C A := fun s => (a, s).

Definition bind {A B : Type} (m : C A) (k : A -> C B) : C B :=
  fun s => let (a, s') := m s in k a s'.

Local Notation "x <- m ;; k" := (bind m (fun x => k))
  (at level 61, m at next level, right associativity).
Local Notation "m ;; k" := (bind m (fun _ => k))
  (at level 61, right associativity).

Definition emit (ev : Event) : C unit :=
  fun s => (tt, {| outside := outside s; events := events s ++ [ev] |}).

Definition io {A : Type} (f : Outside -> A * Outside) : C A :=
  fun s => let (a, w) := f (outside s) in
           (a, {| outside := w; events := events s |}).

Definition newline : string := String "010"%char EmptyString.

(** [fmt.Println(text)]. *)
Definition Println (text : string) : C unit := emit (Printed (text ++ newline)%string).

(** The body of the loop over the parameters of the selected client, and
    the loop itself, which appends one user parameter per client
    parameter. *)
Fixpoint promptParams (clientParams : list ClientParam) (params : list UserParam)
  : C (list UserParam) :=
  match clientParams with
  | [] => ret params
  | param :: rest =>
      let expectedFormat :=
        if negb (string_is_empty (Regex param)) then Regex param
        else if Required param then "^.+$"
        else "^.*$" in
      let optionalLabel :=
        if negb (Required param) then " (leave blank for none)" else EmptyString in
      let prompt := ("Please enter the " ++ Name param ++ optionalLabel)%string in
      let invalid := ("Invalid " ++ Name param)%string in
      value <- (emit (Prompting prompt expectedFormat invalid) ;;
                io (Prompt prompt expectedFormat invalid)) ;;
      promptParams rest (params ++ [{| UserEnv := Env param; Value := value |}])
  end.

(** [configureChain] changes the two chains it is given pointers to; the
    model returns them beside the error. *)
Definition configureChain (globalChain userChain : Chain) (chainName : string)
  : C (outcome (Chain * Chain * option error)) :=
  if (length (Options globalChain) =? 0)%nat then
    ret (Returns (globalChain, userChain,
                  Some (Errorf ("There are no available " ++ chainName
                                  ++ " client options")%string)))
  else
    let clientOptions := map OptionName (Options globalChain) in
    let prompt := ("Which " ++ chainName ++ " client would you like to run?")%string in
    choice <- (emit (Selecting prompt clientOptions) ;;
               io (Select prompt clientOptions)) ;;
    let '(selected, clientName) := choice in
    (* indexing the options with what the user selected *)
    match (if selected <? 0 then None
           else nth_error (Options globalChain) (Z.to_nat selected)) with
    | None => ret Panics
    | Some option =>
        let globalChain := with_Selected (ID option) globalChain in
        let userChain := with_Selected (ID option) userChain in
        emit (Printed (clientName ++ " " ++ chainName ++ " client selected."
                         ++ newline)%string) ;;
        Println EmptyString ;;
        match GetSelectedClient globalChain with
        | None => ret Panics
        | Some client =>
            params <- promptParams (OptionParams client) [] ;;
            let userChain := with_Params params userChain in
            ret (Returns (globalChain, userChain, None))
        end
    end.

(** [configureService]; the deferred [rp.Close()] runs on every way out
    once the client is there, a panic included. *)
Definition configureService (c : Context_) : C (outcome (option error)) :=
  r <- io (GetRocketPoolClient c) ;;
  match r with
  | inr err => ret (Returns (Some err))
  | inl rp =>
      let deferred {A : Type} (a : A) : C A :=
        emit Closing ;; io (fun w => (tt, Close rp w)) ;; ret a in
      l <- (emit Loading ;; io (LoadGlobalConfig rp)) ;;
      let '(globalConfig, err) := l in
      match err with
      | Some err => deferred (Returns (Some err))
      | None =>
          let userConfig := {| Eth1 := zeroChain; Eth2 := zeroChain |} in
          r1 <- configureChain (Eth1 globalConfig) (Eth1 userConfig) "Eth 1.0" ;;
          match r1 with
          | Panics => deferred Panics
          | OutOfFuel => deferred OutOfFuel
          | Returns (_, _, Some err) => deferred (Returns (Some err))
          | Returns (global1, user1, None) =>
              let userConfig := {| Eth1 := user1; Eth2 := Eth2 userConfig |} in
              r2 <- configureChain (Eth2 globalConfig) (Eth2 userConfig) "Eth 2.0" ;;
              match r2 with
              | Panics => deferred Panics
              | OutOfFuel => deferred OutOfFuel
              | Returns (_, _, Some err) => deferred (Returns (Some err))
              | Returns (global2, user2, None) =>
                  let userConfig := {| Eth1 := Eth1 userConfig; Eth2 := user2 |} in
                  err <- (emit (Saving userConfig) ;; io (SaveUserConfig rp userConfig)) ;;
                  match err with
                  | Some err => deferred (Returns (Some err))
                  | None =>
                      Println "Done! Run 'rocketpool service start' to apply new configuration settings." ;;
                      deferred (Returns None)
                  end
              end
          end
      end
  end.

(** How often an event occurs in a trace. *)
Definition is_closing (ev : Event) : bool :=
  match ev with Closing => true | _ => false end.

Definition is_saving (ev : Event) : bool :=
  match ev with Saving _ => true | _ => false end.

Definition is_prompting (ev : Event) : bool :=
  match ev with Prompting _ _ _ | Selecting _ _ => true | _ => false end.

(** Events of the terminal only: nothing saved, nothing closed. *)
Definition terminal_only (evs : list Event) : Prop :=
  Forall (fun ev => is_closing ev = false /\ is_saving ev = false) evs.

End Configure.

End cli.

(** ** A second small network, with typed results

    The same two endpoints and conditions as in [Lab], with values that
    carry their Go type, the methods of the client library, a dialer, a
    parser of decimal numbers and a terminal that answers from a script. *)

Module Lab2.

Import Lab.

(** A non-nil [interface{}] value: the dynamic type and the value. *)
#[warnings="-register-all"]
Inductive dyn : Type :=
| Bytes (b : list Byte.byte)
| Uint (n : Z)
| Bool (b : bool)
| BigIntPtr (x : ptr Z)
| HeaderPtr (h : ptr Z)
| TransactionPtr (tx : ptr Z)
| ReceiptPtr (r : ptr Z)
| Logs (l : list Z)
| Sub (id : Z)
| SyncProgressPtr (p : ptr ethereum.SyncProgress)
| Array (a : list (option dyn)).

#[export] Instance lab2 : Library := {|
  Client := endpoint;
  Value := dyn;
  ClientErr := string;
  message := fun e => e;
  World := endpoint -> condition;
  Time := Z;
  Duration := Z;
  Duration_String := fun _ => "13m0s";
  time_Since := fun _ _ => 780;
  ethclient_SyncProgress := syncProgress;
  IsSyncWithinThreshold := withinThreshold
|}.

(** A method that answers [v] on every reachable node and fails with the
    refused connection, beside [zero], on a node that is down. *)
Definition answering {A : Type} (zero v : A) (client : ptr endpoint)
    (w : endpoint -> condition)
  : (A * option (error_of string)) * (endpoint -> condition) :=
  match client with
  | None => ((zero, Some (ClientError "no client")), w)
  | Some c =>
      match w c with
      | Down => ((zero, Some (ClientError refused)), w)
      | _ => ((v, None), w)
      end
  end.

(** The client library over these values, for a given way of subscribing
    to logs. *)
Definition ethclient_with
    (subscribe : ptr endpoint -> unit -> Z -> unit -> (endpoint -> condition) ->
                 (option Z * option (error_of string)) * (endpoint -> condition))
  : Ethclient (L := lab2).
Proof.
  refine {|
  Ctx := unit;
  Address := Z;
  Hash := Z;
  BigInt := Z;
  CallMsg := Z;
  FilterQuery := Z;
  Header := Z;
  Transaction := Z;
  Receipt := Z;
  Log := Z;
  LogChan := unit;
  Subscription := Z;
  boxed_bytes := {| box := Bytes; unbox := fun v => match v with Bytes b => Some b | _ => None end |};
  boxed_uint64 := {| box := Uint; unbox := fun v => match v with Uint n => Some n | _ => None end |};
  boxed_bool := {| box := Bool; unbox := fun v => match v with Bool b => Some b | _ => None end |};
  boxed_BigInt := {| box := BigIntPtr; unbox := fun v => match v with BigIntPtr x => Some x | _ => None end |};
  boxed_Header := {| box := HeaderPtr; unbox := fun v => match v with HeaderPtr x => Some x | _ => None end |};
  boxed_Transaction := {| box := TransactionPtr; unbox := fun v => match v with TransactionPtr x => Some x | _ => None end |};
  boxed_Receipt := {| box := ReceiptPtr; unbox := fun v => match v with ReceiptPtr x => Some x | _ => None end |};
  boxed_Logs := {| box := Logs; unbox := fun v => match v with Logs x => Some x | _ => None end |};
  boxed_Subscription := {| box := Sub; unbox := fun v => match v with Sub x => Some x | _ => None end |};
  boxed_SyncProgress := {| box := SyncProgressPtr; unbox := fun v => match v with SyncProgressPtr x => Some x | _ => None end |};
  boxed_array := {| box := Array; unbox := fun v => match v with Array x => Some x | _ => None end |};
  client_CodeAt := fun client _ _ _ => answering [] [Byte.x60; Byte.x80] client;
  client_CallContract := fun client _ _ _ => answering [] [Byte.x01] client;
  client_HeaderByNumber := fun client _ _ => answering None (Some 17) client;
  client_PendingCodeAt := fun client _ _ => answering [] [] client;
  client_PendingNonceAt := fun client _ _ => answering 0 5 client;
  client_SuggestGasPrice := fun client _ => answering None (Some 30) client;
  client_SuggestGasTipCap := fun client _ => answering None (Some 2) client;
  client_EstimateGas := fun client _ _ => answering 0 21000 client;
  client_SendTransaction := fun client _ _ w =>
    let '(_, err, w') := answering tt tt client w in (err, w');
  client_FilterLogs := fun client _ _ => answering [] [1; 2] client;
  client_SubscribeFilterLogs := subscribe;
  client_TransactionReceipt := fun client _ _ => answering None (Some 3) client;
  client_BlockNumber := fun client _ => answering 0 12345 client;
  client_BalanceAt := fun client _ _ _ => answering None (Some 1000) client;
  client_TransactionByHash := fun client _ _ w =>
    let '(tx, err, w') := answering None (Some 7) client w in
    ((tx, false, err), w');
  client_NonceAt := fun client _ _ _ => answering 0 4 client;
  client_SyncProgress := fun client _ => syncProgress client
|}; intros t; reflexivity.
Defined.

(** A library whose subscription is nil, without error, on a node that has
    no header; and one whose subscription is never nil without error. *)
Definition subscribe_nil_without_header (client : ptr endpoint) (ctx : unit)
    (query : Z) (ch : unit) (w : endpoint -> condition)
  : (option Z * option (error_of string)) * (endpoint -> condition) :=
  match client with
  | Some c =>
      match w c with
      | NoHeader => ((None, None), w)
      | _ => answering None (Some 1) client w
      end
  | None => answering None (Some 1) client w
  end.

Definition subscribe_always (client : ptr endpoint) (ctx : unit)
    (query : Z) (ch : unit) (w : endpoint -> condition)
  : (option Z * option (error_of string)) * (endpoint -> condition) :=
  match client with
  | None => ((None, Some (ClientError "no client")), w)
  | Some c =>
      match w c with
      | Down => ((None, Some (ClientError refused)), w)
      | _ => ((Some 1, None), w)
      end
  end.

Definition ethclient : Ethclient (L := lab2) := ethclient_with subscribe_nil_without_header.

Definition ethclient_safe : Ethclient (L := lab2) := ethclient_with subscribe_always.


(** Dialling always works, except for the URL [unreachable]. *)
Definition unreachable : string := "http://nowhere:8545".

#[export] Instance dialer : Dialer (L := lab) :=
  @Build_Dialer lab
    (fun url w =>
       if String.eqb url unreachable
       then (inr (ClientError "dial unix: missing address"), w)
       else if String.eqb url "http://eth1-fallback:8546"
       then (inl Fallback, w)
       else (inl Primary, w))
    "eth1"
    "eth1-fallback".

(** Both clients local, with a fallback. *)
Definition local_with_fallback : config.RocketPoolConfig :=
  {| config.IsNativeMode := false;
     config.Native_EcHttpUrl := EmptyString;
     config.ExecutionClientMode := config.Mode_Local;
     config.ExecutionCommon_HttpPort := 8545;
     config.ExternalExecution_HttpUrl := EmptyString;
     config.UseFallbackExecutionClient := true;
     config.FallbackExecutionClientMode := config.Mode_Local;
     config.FallbackExecutionCommon_HttpPort := 8546;
     config.FallbackExternalExecution_HttpUrl := EmptyString |}.

(** An external primary that cannot be dialled. *)
Definition external_unreachable : config.RocketPoolConfig :=
  {| config.IsNativeMode := false;
     config.Native_EcHttpUrl := EmptyString;
     config.ExecutionClientMode := config.Mode_External;
     config.ExecutionCommon_HttpPort := 8545;
     config.ExternalExecution_HttpUrl := unreachable;
     config.UseFallbackExecutionClient := false;
     config.FallbackExecutionClientMode := config.Mode_Local;
     config.FallbackExecutionCommon_HttpPort := 8546;
     config.FallbackExternalExecution_HttpUrl := EmptyString |}.

(** A local primary and an external fallback that cannot be dialled. *)
Definition fallback_unreachable : config.RocketPoolConfig :=
  {| config.IsNativeMode := false;
     config.Native_EcHttpUrl := EmptyString;
     config.ExecutionClientMode := config.Mode_Local;
     config.ExecutionCommon_HttpPort := 8545;
     config.ExternalExecution_HttpUrl := EmptyString;
     config.UseFallbackExecutionClient := true;
     config.FallbackExecutionClientMode := config.Mode_External;
     config.FallbackExecutionCommon_HttpPort := 8546;
     config.FallbackExternalExecution_HttpUrl := unreachable |}.

(** A parser that reads decimal numbers, as [SetString] with base 0 does
    for text without a prefix. *)
#[export] Instance decimal : rewards.Library := {|
  rewards.SetString0 := fun s =>
    option_map Z.of_int (DecimalString.NilZero.int_of_string s);
  rewards.Hash := string;
  rewards.HexToHash := fun s => s
|}.

(** A terminal whose user always picks the option whose index is the
    number of questions asked so far minus one, and answers every prompt
    with the same text; the service client always works. *)
Definition geth : cli.ClientOption :=
  {| cli.ID := "geth"; cli.OptionName := "Geth";
     cli.OptionParams :=
       [ {| cli.Name := "Ethstats label"; cli.Env := "ETHSTATS_LABEL";
            cli.Required := false; cli.Regex := EmptyString |};
         {| cli.Name := "Infura project ID"; cli.Env := "INFURA_PROJECT_ID";
            cli.Required := true; cli.Regex := "^[0-9a-f]+$" |} ] |}.

Definition infura : cli.ClientOption :=
  {| cli.ID := "infura"; cli.OptionName := "Infura"; cli.OptionParams := [] |}.

Definition eth1Chain : cli.Chain :=
  {| cli.Options := [geth; infura]; cli.Selected := EmptyString; cli.Params := [] |}.

Definition terminal_with (getSelectedClient : cli.Chain -> ptr cli.ClientOption)
  : cli.Terminal := {|
  cli.Outside := Z;
  cli.Context_ := unit;
  cli.ServiceClient := unit;
  cli.ServiceErr := string;
  cli.Select := fun _ options choice =>
    ((choice, nth (Z.to_nat choice) options EmptyString), choice);
  cli.Prompt := fun _ _ _ choice => ("abc123", choice);
  cli.GetSelectedClient := getSelectedClient;
  cli.GetRocketPoolClient := fun _ w => (inl tt, w);
  cli.LoadGlobalConfig := fun _ w =>
    (({| cli.Eth1 := eth1Chain; cli.Eth2 := cli.zeroChain |}, None), w);
  cli.SaveUserConfig := fun _ _ w => (None, w);
  cli.Close := fun _ w => w
|}.

(** The chain looks the selected client up by its ID; a chain that has
    lost its options finds none. *)
Definition terminal : cli.Terminal :=
  terminal_with
    (fun chain =>
       find (fun option => String.eqb (cli.ID option) (cli.Selected chain))
            (cli.Options chain)).

Definition forgetful_terminal : cli.Terminal := terminal_with (fun _ => None).

Definition asking (T : cli.Terminal) (choice : @cli.Outside T) : @cli.State T :=
  {| cli.outside := choice; cli.events := [] |}.

(** The primary flag set, no fallback flag, the primary down. *)
Definition primary_down_alone : State (L := lab) :=
  start (manager true false false) (net Down Healthy).

(** The primary without header. *)
Definition primary_headerless : State (L := lab2) :=
  {| mgr := {| primaryEcUrl := "http://eth1:8545";
               fallbackEcUrl := EmptyString;
               primaryEc := Some Primary;
               fallbackEc := None;
               primaryReady := true;
               fallbackReady := false;
               ignoreSyncCheck := false |};
     world := net NoHeader Healthy;
     trace := [] |}.

End Lab2.

(** * Facts *)

(** ** Substring search *)

Lemma HasPrefix_app (s substr : string) :
  strings.HasPrefix s substr = true <-> exists post, s = (substr ++ post)%string.
Proof.
  revert s; induction substr as [|c substr IH]; intros s; simpl.
  - split; [intros _; now exists s | reflexivity].
  - destruct s as [|d s]; [split; [discriminate | intros [post H]; discriminate]|].
    destruct (Ascii.eqb_spec d c) as [->|Hne].
    + rewrite IH. split; intros [post H]; exists post.
      * now rewrite H.
      * now injection H.
    + split; [discriminate|]. intros [post H]. injection H as Hd _. contradiction.
Qed.

(** The boolean search agrees with the usual meaning of "contains". *)
Lemma Contains_spec (s substr : string) :
  strings.Contains s substr = true <->
  exists pre post, s = (pre ++ substr ++ post)%string.
Proof.
  induction s as [|d s IH].
  - simpl. destruct (strings.HasPrefix "" substr) eqn:Hp.
    + apply HasPrefix_app in Hp as [post Hp].
      split; [intros _; now exists "", post | reflexivity].
    + split; [discriminate|]. intros [[|c pre] [post H]]; simpl in H.
      * assert (strings.HasPrefix "" substr = true) by (apply HasPrefix_app; now exists post).
        congruence.
      * discriminate.
  - simpl strings.Contains. destruct (strings.HasPrefix (String d s) substr) eqn:Hp.
    + apply HasPrefix_app in Hp as [post Hp].
      split; [intros _; now exists "", post | reflexivity].
    + rewrite IH. split.
      * intros (pre & post & ->). now exists (String d pre), post.
      * intros ([|c pre] & post & H); simpl in H.
        -- assert (strings.HasPrefix (String d s) substr = true)
             by (apply HasPrefix_app; now exists post).
           congruence.
        -- injection H as _ ->. now exists pre, post.
Qed.


(** ** The equations of [runFunction], branch by branch *)

Section DispatchFacts.

Context `{L : Library}.

Ltac run_step :=
  cbn [runFunction_fuel];
  unfold bind, this, invoke, emit, remote, assign, ret; cbn.

Lemma run_primary_ok n function s r w :
  primaryReady (mgr s) = true ->
  function (primaryEc (mgr s)) (world s) = (r, None, w) ->
  runFunction_fuel (S n) function s
  = (Some (r, None), after_call (primaryEc (mgr s)) w s).
Proof.
  intros Hp Hf. run_step. rewrite Hp, Hf. reflexivity.
Qed.

Lemma run_primary_error n function s r err w :
  primaryReady (mgr s) = true ->
  function (primaryEc (mgr s)) (world s) = (r, Some err, w) ->
  isDisconnected err = false ->
  runFunction_fuel (S n) function s
  = (Some (None, Some err), after_call (primaryEc (mgr s)) w s).
Proof.
  intros Hp Hf Hd. run_step. rewrite Hp, Hf. cbn. rewrite Hd. reflexivity.
Qed.

Lemma run_primary_disconnected n function s r err w :
  primaryReady (mgr s) = true ->
  function (primaryEc (mgr s)) (world s) = (r, Some err, w) ->
  isDisconnected err = true ->
  runFunction_fuel (S n) function s
  = runFunction_fuel n function (primary_demoted err w s).
Proof.
  intros Hp Hf Hd. run_step. rewrite Hp, Hf. cbn. rewrite Hd.
  unfold primary_demoted. cbn. rewrite <- app_assoc. reflexivity.
Qed.

Lemma run_fallback_ok n function s r w :
  primaryReady (mgr s) = false ->
  fallbackReady (mgr s) = true ->
  function (fallbackEc (mgr s)) (world s) = (r, None, w) ->
  runFunction_fuel (S n) function s
  = (Some (r, None), after_call (fallbackEc (mgr s)) w s).
Proof.
  intros Hp Hb Hf. run_step. rewrite Hp, Hb, Hf. reflexivity.
Qed.

Lemma run_fallback_error n function s r err w :
  primaryReady (mgr s) = false ->
  fallbackReady (mgr s) = true ->
  function (fallbackEc (mgr s)) (world s) = (r, Some err, w) ->
  isDisconnected err = false ->
  runFunction_fuel (S n) function s
  = (Some (None, Some err), after_call (fallbackEc (mgr s)) w s).
Proof.
  intros Hp Hb Hf Hd. run_step. rewrite Hp, Hb, Hf. cbn. rewrite Hd. reflexivity.
Qed.

Lemma run_fallback_disconnected n function s r err w :
  primaryReady (mgr s) = false ->
  fallbackReady (mgr s) = true ->
  function (fallbackEc (mgr s)) (world s) = (r, Some err, w) ->
  isDisconnected err = true ->
  runFunction_fuel (S n) function s
  = (Some (None, Some (Errorf "all execution clients failed")),
     fallback_demoted err w s).
Proof.
  intros Hp Hb Hf Hd. run_step. rewrite Hp, Hb, Hf. cbn. rewrite Hd.
  unfold fallback_demoted. cbn. rewrite <- app_assoc. reflexivity.
Qed.

Lemma run_none_ready n function s :
  primaryReady (mgr s) = false ->
  fallbackReady (mgr s) = false ->
  runFunction_fuel (S n) function s
  = (Some (None, Some (Errorf "no execution clients were ready")), s).
Proof.
  intros Hp Hb. run_step. rewrite Hp, Hb. reflexivity.
Qed.

(** Case analysis along the branches of a run with the primary flag
    cleared, each rewritten with its equation. *)
Ltac fallback_branches function s Hp :=
  let Hb := fresh "Hb" in
  let Hf := fresh "Hf" in
  let Hd := fresh "Hd" in
  destruct (fallbackReady (mgr s)) eqn:Hb;
  [ destruct (function (fallbackEc (mgr s)) (world s)) as [[?r [?err|]] ?w] eqn:Hf;
    [ match goal with
      | Hf : function _ _ = (_, Some ?err, _) |- _ =>
          destruct (isDisconnected err) eqn:Hd;
          [ rewrite !(run_fallback_disconnected _ _ _ _ _ _ Hp Hb Hf Hd)
          | rewrite !(run_fallback_error _ _ _ _ _ _ Hp Hb Hf Hd) ]
      end
    | rewrite !(run_fallback_ok _ _ _ _ _ Hp Hb Hf) ]
  | rewrite !(run_none_ready _ _ _ Hp Hb) ].

(** With the primary flag cleared, fuel 1 is enough. *)
Lemma runFunction_fuel_demoted n function s :
  primaryReady (mgr s) = false ->
  runFunction_fuel (S n) function s = runFunction_fuel 1 function s.
Proof.
  intros Hp. fallback_branches function s Hp; reflexivity.
Qed.

(** Fuel 2 is all [runFunction] ever needs: the call inside it is made with
    the primary flag cleared, and that run does not call again. So more
    fuel than 2 changes nothing. *)
Lemma runFunction_fuel_enough n function s :
  runFunction_fuel (S (S n)) function s = runFunction_fuel 2 function s.
Proof.
  destruct (primaryReady (mgr s)) eqn:Hp.
  - destruct (function (primaryEc (mgr s)) (world s)) as [[r [err|]] w] eqn:Hf.
    + destruct (isDisconnected err) eqn:Hd.
      * rewrite !(run_primary_disconnected _ _ _ _ _ _ Hp Hf Hd).
        apply runFunction_fuel_demoted. reflexivity.
      * now rewrite !(run_primary_error _ _ _ _ _ _ Hp Hf Hd).
    + now rewrite !(run_primary_ok _ _ _ _ _ Hp Hf).
  - now rewrite (runFunction_fuel_demoted (S n)), (runFunction_fuel_demoted 1).
Qed.

(** With the primary flag cleared a run calls at most one handle. *)
Lemma run_demoted_calls n function s :
  primaryReady (mgr s) = false ->
  exists out s' evs,
    runFunction_fuel (S n) function s = (Some out, s')
    /\ trace s' = trace s ++ evs
    /\ (length (invoked evs) <= 1)%nat.
Proof.
  intros Hp. fallback_branches function s Hp.
  1-3: eexists _, _, _; (split; [reflexivity|]); (split; [reflexivity|]); cbn; lia.
  exists (None, Some (Errorf "no execution clients were ready")), s, [].
  split; [reflexivity|]. split; [now rewrite app_nil_r|]. cbn. lia.
Qed.

(** Any run on fuel 2 or more returns, after at most two calls. *)
Lemma run_calls_bounded n function s :
  exists out s' evs,
    runFunction_fuel (S (S n)) function s = (Some out, s')
    /\ trace s' = trace s ++ evs
    /\ (length (invoked evs) <= 2)%nat.
Proof.
  destruct (primaryReady (mgr s)) eqn:Hp.
  - destruct (function (primaryEc (mgr s)) (world s)) as [[r [err|]] w] eqn:Hf.
    + destruct (isDisconnected err) eqn:Hd.
      * rewrite (run_primary_disconnected _ _ _ _ _ _ Hp Hf Hd).
        destruct (run_demoted_calls n function (primary_demoted err w s) eq_refl)
          as (out & s' & evs & Hrun & Htr & Hlen).
        exists out, s'. eexists. split; [exact Hrun|]. rewrite Htr.
        unfold primary_demoted. cbn [trace]. rewrite <- app_assoc.
        split; [reflexivity|]. cbn. lia.
      * rewrite (run_primary_error _ _ _ _ _ _ Hp Hf Hd).
        eexists _, _, _. split; [reflexivity|]. split; [reflexivity|]. cbn. lia.
    + rewrite (run_primary_ok _ _ _ _ _ Hp Hf).
      eexists _, _, _. split; [reflexivity|]. split; [reflexivity|]. cbn. lia.
  - destruct (run_demoted_calls (S n) function s Hp)
      as (out & s' & evs & Hrun & Htr & Hlen).
    exists out, s', evs. split; [exact Hrun|]. split; [exact Htr|]. lia.
Qed.

(** ** What a dispatch does *)

(** C3. With both readiness flags false, a dispatch fails at once with the
    error "no execution clients were ready"; the state it leaves is the state
    it found, so no handle was invoked (the trace and the world are as
    before) and both flags are unchanged. *)
Theorem dispatch_none_ready n function s :
  primaryReady (mgr s) = false ->
  fallbackReady (mgr s) = false ->
  runFunction_fuel (S n) function s
  = (Some (None, Some (Errorf "no execution clients were ready")), s).
Proof.
  exact (run_none_ready n function s).
Qed.

(** C2. When the call on the handle the dispatch selects fails with an error
    that is not a disconnection, the caller gets that very error, the manager
    (both flags included) is as before, and the selected handle is the only
    one invoked. *)
Theorem dispatch_application_error n function s client r err w :
  selected (mgr s) = Some client ->
  function client (world s) = (r, Some err, w) ->
  isDisconnected err = false ->
  runFunction_fuel (S n) function s
  = (Some (None, Some err),
     {| mgr := mgr s; world := w; trace := trace s ++ [Invoke client] |}).
Proof.
  unfold selected. intros Hsel Hf Hd.
  destruct (primaryReady (mgr s)) eqn:Hp.
  - injection Hsel as <-. now rewrite (run_primary_error _ _ _ _ _ _ Hp Hf Hd).
  - destruct (fallbackReady (mgr s)) eqn:Hb; [|discriminate].
    injection Hsel as <-. now rewrite (run_fallback_error _ _ _ _ _ _ Hp Hb Hf Hd).
Qed.

(** C4. A dispatch that goes to the fallback (primary not ready, fallback
    ready) and meets a disconnection there clears the fallback flag and
    returns "all execution clients failed"; the fallback is the only handle
    invoked, once. *)
Theorem dispatch_fallback_disconnected n function s r err w :
  primaryReady (mgr s) = false ->
  fallbackReady (mgr s) = true ->
  function (fallbackEc (mgr s)) (world s) = (r, Some err, w) ->
  isDisconnected err = true ->
  exists s' evs,
    runFunction_fuel (S n) function s
    = (Some (None, Some (Errorf "all execution clients failed")), s')
    /\ primaryReady (mgr s') = false
    /\ fallbackReady (mgr s') = false
    /\ world s' = w
    /\ trace s' = trace s ++ evs
    /\ invoked evs = [fallbackEc (mgr s)].
Proof.
  intros Hp Hb Hf Hd.
  rewrite (run_fallback_disconnected _ _ _ _ _ _ Hp Hb Hf Hd).
  eexists _, _. split; [reflexivity|]. cbn [fallback_demoted mgr world trace].
  split; [exact Hp|]. repeat (split; [reflexivity|]). reflexivity.
Qed.

(** C1, as the code has it. When the primary is ready and its call ends in a
    disconnection while the fallback is ready, the primary flag is cleared
    and the same function is run once on the fallback, with no further hop.
    What the caller gets is the fallback's result when that call succeeds,
    nil and the fallback's error when that call fails without a
    disconnection, and nil and "all execution clients failed" (the fallback
    flag cleared too) when the fallback is disconnected as well. And never,
    from any state, is there more than one hop: a dispatch returns on fuel
    2, having called at most two handles. *)
Theorem dispatch_failover :
  (forall n function s r1 e1 w1 r2 oe2 w2,
     primaryReady (mgr s) = true ->
     fallbackReady (mgr s) = true ->
     function (primaryEc (mgr s)) (world s) = (r1, Some e1, w1) ->
     isDisconnected e1 = true ->
     function (fallbackEc (mgr s)) w1 = (r2, oe2, w2) ->
     exists out s' evs,
       runFunction_fuel (S (S n)) function s = (Some out, s')
       /\ out = match oe2 with
                | None => (r2, None)
                | Some e2 =>
                    if isDisconnected e2
                    then (None, Some (Errorf "all execution clients failed"))
                    else (None, Some e2)
                end
       /\ primaryReady (mgr s') = false
       /\ fallbackReady (mgr s')
          = match oe2 with
            | None => true
            | Some e2 => negb (isDisconnected e2)
            end
       /\ world s' = w2
       /\ trace s' = trace s ++ evs
       /\ invoked evs = [primaryEc (mgr s); fallbackEc (mgr s)])
  /\
  (forall n function s,
     exists out s' evs,
       runFunction_fuel (S (S n)) function s = (Some out, s')
       /\ trace s' = trace s ++ evs
       /\ (length (invoked evs) <= 2)%nat).
Proof.
  split; [|exact run_calls_bounded].
  intros n function s r1 e1 w1 r2 oe2 w2 Hp Hb Hf1 Hd1 Hf2.
  rewrite (run_primary_disconnected _ _ _ _ _ _ Hp Hf1 Hd1).
  set (s1 := primary_demoted e1 w1 s).
  assert (Hp1 : primaryReady (mgr s1) = false) by reflexivity.
  assert (Hb1 : fallbackReady (mgr s1) = true) by exact Hb.
  assert (Hf2' : function (fallbackEc (mgr s1)) (world s1) = (r2, oe2, w2)) by exact Hf2.
  assert (Htr : forall t : State,
            trace t = trace s1 ++ [Invoke (fallbackEc (mgr s))] \/
            (exists line, trace t = trace s1 ++ [Invoke (fallbackEc (mgr s)); Printlnf line]) ->
            exists evs, trace t = trace s ++ evs
                        /\ invoked evs = [primaryEc (mgr s); fallbackEc (mgr s)]).
  { intros t [Ht|[line Ht]]; rewrite Ht; unfold s1, primary_demoted; cbn [trace];
      rewrite <- app_assoc; eexists; (split; [reflexivity|]); reflexivity. }
  destruct oe2 as [e2|].
  - destruct (isDisconnected e2) eqn:Hd2.
    + rewrite (run_fallback_disconnected _ _ _ _ _ _ Hp1 Hb1 Hf2' Hd2).
      destruct (Htr (fallback_demoted e2 w2 s1)) as (evs & Hevs & Hinv);
        [right; eexists; reflexivity|].
      exists (None, Some (Errorf "all execution clients failed")),
             (fallback_demoted e2 w2 s1), evs.
      repeat split; assumption || reflexivity.
    + rewrite (run_fallback_error _ _ _ _ _ _ Hp1 Hb1 Hf2' Hd2).
      destruct (Htr (after_call (fallbackEc (mgr s1)) w2 s1)) as (evs & Hevs & Hinv);
        [left; reflexivity|].
      exists (None, Some e2), (after_call (fallbackEc (mgr s1)) w2 s1), evs.
      repeat split; assumption || reflexivity.
  - rewrite (run_fallback_ok _ _ _ _ _ Hp1 Hb1 Hf2').
    destruct (Htr (after_call (fallbackEc (mgr s1)) w2 s1)) as (evs & Hevs & Hinv);
      [left; reflexivity|].
    exists (r2, None), (after_call (fallbackEc (mgr s1)) w2 s1), evs.
    repeat split; assumption || reflexivity.
Qed.

End DispatchFacts.

(** ** Health checks *)

Section HealthFacts.

Context `{L : Library}.

Ltac probe_step :=
  unfold checkClientStatus, bind, emit, remote, ret; cbn.

Lemma probed_app (evs1 evs2 : list Event) :
  probed (evs1 ++ evs2) = probed evs1 ++ probed evs2.
Proof.
  induction evs1 as [|[c|l|c|c] evs1 IH]; cbn; now rewrite ?IH.
Qed.

(** A probe never touches the manager, and what it adds to the trace asks
    for the sync progress of its client, once. *)
Lemma checkClientStatus_frame client s :
  mgr (snd (checkClientStatus client s)) = mgr s
  /\ exists evs, trace (snd (checkClientStatus client s)) = trace s ++ evs
                 /\ probed evs = [client].
Proof.
  probe_step.
  destruct (ethclient_SyncProgress client (world s)) as [[[pr|] [err|]] w1]; cbn;
    try (split; [reflexivity|]; eexists; split; reflexivity).
  destruct (IsSyncWithinThreshold client w1) as [[[up bt] [err|]] w2]; cbn.
  - split; [reflexivity|]. rewrite <- app_assoc. eexists; split; reflexivity.
  - destruct up; cbn; (split; [reflexivity|]);
      rewrite <- app_assoc; eexists; split; reflexivity.
Qed.

(** The status a refresh reports when it is told to skip the live check. *)
Lemma CheckStatus_skip s :
  ignoreSyncCheck (mgr s) = true ->
  CheckStatus s
  = ({| api.PrimaryEcStatus :=
          {| api.IsWorking := primaryReady (mgr s);
             api.IsSynced := primaryReady (mgr s);
             api.SyncProgress := float64.zero;
             api.Error := EmptyString |};
        api.FallbackEnabled := negb (isNil (fallbackEc (mgr s)));
        api.FallbackEcStatus :=
          if negb (isNil (fallbackEc (mgr s))) then
            {| api.IsWorking := fallbackReady (mgr s);
               api.IsSynced := fallbackReady (mgr s);
               api.SyncProgress := float64.zero;
               api.Error := EmptyString |}
          else api.zeroStatus |}, s).
Proof.
  intros Hi. unfold CheckStatus, bind, this, ret. rewrite Hi. cbn.
  destruct (isNil (fallbackEc (mgr s))); reflexivity.
Qed.

(** A live refresh, step by step: the primary probe, the fallback probe if
    a fallback is configured, then the two assignments. *)
Lemma CheckStatus_live s :
  ignoreSyncCheck (mgr s) = false ->
  let enabled := negb (isNil (fallbackEc (mgr s))) in
  let r1 := checkClientStatus (primaryEc (mgr s)) s in
  let r2 := if enabled then checkClientStatus (fallbackEc (mgr s)) (snd r1)
            else (api.zeroStatus, snd r1) in
  CheckStatus s
  = ({| api.PrimaryEcStatus := fst r1;
        api.FallbackEnabled := enabled;
        api.FallbackEcStatus := fst r2 |},
     {| mgr := with_fallbackReady
                 (enabled && api.IsWorking (fst r2) && api.IsSynced (fst r2))
                 (with_primaryReady
                    (api.IsWorking (fst r1) && api.IsSynced (fst r1))
                    (mgr (snd r2)));
        world := world (snd r2);
        trace := trace (snd r2) |}).
Proof.
  intros Hi. cbv zeta. unfold CheckStatus, bind, this, ret, assign. rewrite Hi. cbn.
  destruct (checkClientStatus (primaryEc (mgr s)) s) as [st1 s1]. cbn.
  destruct (isNil (fallbackEc (mgr s))); cbn.
  - reflexivity.
  - destruct (checkClientStatus (fallbackEc (mgr s)) s1) as [st2 s2]. reflexivity.
Qed.

(** C6. Without the skip-live-check mode a refresh probes the primary, and
    the fallback when one is configured, in that order, and then overwrites
    the primary flag with isWorking && isSynced of the fresh primary status
    and the fallback flag with configured && isWorking && isSynced of the
    fresh fallback status. With the mode set it reports each status from
    the stored flag and leaves the state as it found it: no probe, no flag
    changed. *)
Theorem refresh_status s :
  let enabled := negb (isNil (fallbackEc (mgr s))) in
  let r1 := checkClientStatus (primaryEc (mgr s)) s in
  let r2 := if enabled then checkClientStatus (fallbackEc (mgr s)) (snd r1)
            else (api.zeroStatus, snd r1) in
  (ignoreSyncCheck (mgr s) = false ->
   fst (CheckStatus s)
   = {| api.PrimaryEcStatus := fst r1;
        api.FallbackEnabled := enabled;
        api.FallbackEcStatus := fst r2 |}
   /\ primaryReady (mgr (snd (CheckStatus s)))
      = api.IsWorking (fst r1) && api.IsSynced (fst r1)
   /\ fallbackReady (mgr (snd (CheckStatus s)))
      = enabled && api.IsWorking (fst r2) && api.IsSynced (fst r2)
   /\ exists evs,
        trace (snd (CheckStatus s)) = trace s ++ evs
        /\ probed evs
           = primaryEc (mgr s) :: (if enabled then [fallbackEc (mgr s)] else []))
  /\
  (ignoreSyncCheck (mgr s) = true ->
   snd (CheckStatus s) = s
   /\ api.FallbackEnabled (fst (CheckStatus s)) = enabled
   /\ api.IsWorking (api.PrimaryEcStatus (fst (CheckStatus s))) = primaryReady (mgr s)
   /\ api.IsSynced (api.PrimaryEcStatus (fst (CheckStatus s))) = primaryReady (mgr s)
   /\ (enabled = true ->
       api.IsWorking (api.FallbackEcStatus (fst (CheckStatus s))) = fallbackReady (mgr s)
       /\ api.IsSynced (api.FallbackEcStatus (fst (CheckStatus s))) = fallbackReady (mgr s))).
Proof.
  cbv zeta. split; intros Hi.
  - rewrite (CheckStatus_live s Hi). cbn [fst snd mgr trace primaryReady fallbackReady
                                          with_primaryReady with_fallbackReady].
    repeat (split; [reflexivity|]).
    destruct (checkClientStatus_frame (primaryEc (mgr s)) s) as (_ & evs1 & Ht1 & Hp1).
    destruct (isNil (fallbackEc (mgr s))); cbn [negb snd].
    + exists evs1. split; assumption.
    + destruct (checkClientStatus_frame (fallbackEc (mgr s))
                  (snd (checkClientStatus (primaryEc (mgr s)) s)))
        as (_ & evs2 & Ht2 & Hp2).
      exists (evs1 ++ evs2). rewrite Ht2, Ht1, <- app_assoc. split; [reflexivity|].
      now rewrite probed_app, Hp1, Hp2.
  - rewrite (CheckStatus_skip s Hi). cbn.
    repeat (split; [reflexivity|]). intros ->. split; reflexivity.
Qed.

(** C8. When the node reports no sync in progress and the staleness check
    answers, without error, that the latest block is too old, the probe
    reports isWorking = true, isSynced = false and a non-empty message that
    tells how old the block is. When the staleness check fails, the probe
    reports isWorking = false with the text of that failure in its message. *)
Theorem probe_claims_synced client s w1 :
  ethclient_SyncProgress client (world s) = (None, None, w1) ->
  (forall blockTime w2,
     IsSyncWithinThreshold client w1 = (false, blockTime, None, w2) ->
     let st := fst (checkClientStatus client s) in
     api.IsWorking st = true
     /\ api.IsSynced st = false
     /\ api.Error st
        = ("Client claims to have finished syncing, but its last block was from "
             ++ Duration_String (time_Since blockTime w2)
             ++ " ago. It likely doesn't have enough peers")%string
     /\ api.Error st <> EmptyString)
  /\
  (forall isUpToDate blockTime err w2,
     IsSyncWithinThreshold client w1 = (isUpToDate, blockTime, Some err, w2) ->
     let st := fst (checkClientStatus client s) in
     api.IsWorking st = false
     /\ api.Error st
        = ("Error checking if client's sync progress is up to date: ["
             ++ Error err ++ "]")%string).
Proof.
  intros Hsp. split.
  - intros blockTime w2 Hth. probe_step. rewrite Hsp. cbn. rewrite Hth. cbn.
    repeat (split; [reflexivity|]). discriminate.
  - intros isUpToDate blockTime err w2 Hth. probe_step. rewrite Hsp. cbn.
    rewrite Hth. cbn. split; reflexivity.
Qed.

End HealthFacts.

(** ** Demotion and promotion *)

Section PolicyFacts.

Context `{L : Library}.

Lemma isDisconnected_spec (err : error) :
  isDisconnected err = true <-> mentions_dial_tcp (Error err).
Proof.
  unfold isDisconnected, mentions_dial_tcp. apply Contains_spec.
Qed.

Lemma isDisconnected_false (err : error) :
  isDisconnected err = false <-> ~ mentions_dial_tcp (Error err).
Proof.
  rewrite <- isDisconnected_spec. destruct (isDisconnected err); split; intros H;
    congruence || (exfalso; now apply H) || discriminate.
Qed.

(** A run on fuel 1 with the primary flag cleared can only clear the
    fallback flag. *)
Lemma run_demoted_flags n function s :
  primaryReady (mgr s) = false ->
  primaryReady (mgr (snd (runFunction_fuel (S n) function s))) = false
  /\ Bool.le (fallbackReady (mgr (snd (runFunction_fuel (S n) function s))))
             (fallbackReady (mgr s)).
Proof.
  intros Hp. destruct (fallbackReady (mgr s)) eqn:Hb.
  - destruct (function (fallbackEc (mgr s)) (world s)) as [[r [err|]] w] eqn:Hf.
    + destruct (isDisconnected err) eqn:Hd.
      * rewrite (run_fallback_disconnected _ _ _ _ _ _ Hp Hb Hf Hd). cbn. now split.
      * rewrite (run_fallback_error _ _ _ _ _ _ Hp Hb Hf Hd). cbn.
        rewrite Hp, Hb. now split.
    + rewrite (run_fallback_ok _ _ _ _ _ Hp Hb Hf). cbn. rewrite Hp, Hb. now split.
  - rewrite (run_none_ready _ _ _ Hp Hb). cbn. rewrite Hp, Hb. now split.
Qed.

(** C5. Whatever the fuel, the function and the state, a dispatch leaves
    each readiness flag at most what it was: a flag that is false before is
    false after. A refresh is what sets a flag: it sets the primary flag
    when the fresh primary status is working and synced, and the fallback
    flag when a fallback is configured and its fresh status is working and
    synced, whatever the flags were. *)
Theorem dispatch_never_promotes :
  (forall fuel function s,
     Bool.le (primaryReady (mgr (snd (runFunction_fuel fuel function s))))
             (primaryReady (mgr s))
     /\ Bool.le (fallbackReady (mgr (snd (runFunction_fuel fuel function s))))
                (fallbackReady (mgr s)))
  /\
  (forall s,
     ignoreSyncCheck (mgr s) = false ->
     let r1 := checkClientStatus (primaryEc (mgr s)) s in
     (api.IsWorking (fst r1) = true -> api.IsSynced (fst r1) = true ->
      primaryReady (mgr (snd (CheckStatus s))) = true)
     /\
     (isNil (fallbackEc (mgr s)) = false ->
      let r2 := checkClientStatus (fallbackEc (mgr s)) (snd r1) in
      api.IsWorking (fst r2) = true -> api.IsSynced (fst r2) = true ->
      fallbackReady (mgr (snd (CheckStatus s))) = true)).
Proof.
  split.
  - intros [|fuel] function s.
    + cbn. destruct (primaryReady (mgr s)), (fallbackReady (mgr s)); now split.
    + destruct (primaryReady (mgr s)) eqn:Hp.
      * destruct (function (primaryEc (mgr s)) (world s)) as [[r [err|]] w] eqn:Hf.
        -- destruct (isDisconnected err) eqn:Hd.
           ++ rewrite (run_primary_disconnected _ _ _ _ _ _ Hp Hf Hd).
              destruct fuel as [|fuel].
              ** cbn. destruct (fallbackReady (mgr s)); now split.
              ** destruct (run_demoted_flags fuel function (primary_demoted err w s))
                   as [H1 H2]; [reflexivity|].
                 rewrite H1. split; [exact I | exact H2].
           ++ rewrite (run_primary_error _ _ _ _ _ _ Hp Hf Hd). cbn. rewrite Hp.
              destruct (fallbackReady (mgr s)); now split.
        -- rewrite (run_primary_ok _ _ _ _ _ Hp Hf). cbn. rewrite Hp.
           destruct (fallbackReady (mgr s)); now split.
      * destruct (run_demoted_flags fuel function s Hp) as [H1 H2].
        rewrite H1. split; [exact I | exact H2].
  - intros s Hi. cbv zeta. rewrite (CheckStatus_live s Hi). cbn. split.
    + intros -> ->. reflexivity.
    + intros ->. cbn. intros -> ->. reflexivity.
Qed.

(** C10. An error counts as a disconnection exactly when its message
    contains "dial tcp", whichever layer made it. On a ready primary such an
    error has the primary demoted, logged and the call handed to what a
    dispatch does with the primary flag cleared; any other error is returned
    as it is, the manager untouched. On the fallback such an error has the
    fallback demoted and "all execution clients failed" returned; any other
    error is returned as it is. *)
Theorem disconnected_iff_dial_tcp :
  (forall err : error, isDisconnected err = true <-> mentions_dial_tcp (Error err))
  /\
  (forall n function s r err w,
     primaryReady (mgr s) = true ->
     function (primaryEc (mgr s)) (world s) = (r, Some err, w) ->
     (mentions_dial_tcp (Error err) ->
      runFunction_fuel (S (S n)) function s
      = runFunction_fuel (S n) function (primary_demoted err w s))
     /\
     (~ mentions_dial_tcp (Error err) ->
      runFunction_fuel (S (S n)) function s
      = (Some (None, Some err), after_call (primaryEc (mgr s)) w s)))
  /\
  (forall n function s r err w,
     primaryReady (mgr s) = false ->
     fallbackReady (mgr s) = true ->
     function (fallbackEc (mgr s)) (world s) = (r, Some err, w) ->
     (mentions_dial_tcp (Error err) ->
      runFunction_fuel (S n) function s
      = (Some (None, Some (Errorf "all execution clients failed")),
         fallback_demoted err w s))
     /\
     (~ mentions_dial_tcp (Error err) ->
      runFunction_fuel (S n) function s
      = (Some (None, Some err), after_call (fallbackEc (mgr s)) w s))).
Proof.
  split; [exact isDisconnected_spec|]. split.
  - intros n function s r err w Hp Hf. split; intros Hm.
    + apply isDisconnected_spec in Hm.
      exact (run_primary_disconnected _ _ _ _ _ _ Hp Hf Hm).
    + apply isDisconnected_false in Hm.
      exact (run_primary_error _ _ _ _ _ _ Hp Hf Hm).
  - intros n function s r err w Hp Hb Hf. split; intros Hm.
    + apply isDisconnected_spec in Hm.
      exact (run_fallback_disconnected _ _ _ _ _ _ Hp Hb Hf Hm).
    + apply isDisconnected_false in Hm.
      exact (run_fallback_error _ _ _ _ _ _ Hp Hb Hf Hm).
Qed.

End PolicyFacts.

(** ** The arithmetic of the sync progress *)

Lemma iter_pos_inv {A : Type} (P : A -> Prop) (f : A -> A) :
  (forall x, P x -> P (f x)) -> forall n x, P x -> P (iter_pos f n x).
Proof.
  intros Hf. induction n as [n IH|n IH|]; intros x Hx; cbn; auto.
Qed.

Lemma shr_1_nonneg mrs : 0 <= shr_m mrs -> 0 <= shr_m (shr_1 mrs).
Proof.
  destruct mrs as [m r s]. cbn. destruct m as [|[p|p|]|p]; cbn; lia.
Qed.

Lemma shr_fexp_nonneg prec emax m e l :
  0 <= m -> 0 <= shr_m (fst (shr_fexp prec emax m e l)).
Proof.
  intros Hm. unfold shr_fexp, shr.
  assert (H0 : 0 <= shr_m (shr_record_of_loc m l)) by (destruct l as [|[]]; exact Hm).
  destruct (fexp prec emax (Zdigits2 m + e) - e); cbn [fst]; auto.
  apply (iter_pos_inv (fun mrs => 0 <= shr_m mrs)); auto using shr_1_nonneg.
Qed.

Lemma round_nearest_even_nonneg m l : 0 <= m -> 0 <= round_nearest_even m l.
Proof.
  intros Hm. destruct l as [|[]]; cbn; try lia. destruct (Z.even m); lia.
Qed.

Lemma binary_round_aux_sign prec emax s m e l :
  0 <= m -> float64.signed_as s (binary_round_aux prec emax s m e l).
Proof.
  intros Hm. unfold binary_round_aux.
  pose proof (shr_fexp_nonneg prec emax m e l Hm) as H1.
  destruct (shr_fexp prec emax m e l) as [mrs' e']. cbn [fst] in H1.
  pose proof (shr_fexp_nonneg prec emax _ e' loc_Exact
                (round_nearest_even_nonneg _ (loc_of_shr_record mrs') H1)) as H2.
  destruct (shr_fexp prec emax _ e' loc_Exact) as [mrs'' e'']. cbn [fst] in H2.
  destruct (shr_m mrs'') as [|p|p]; cbn; [reflexivity| |lia].
  destruct (e'' <=? emax - prec); reflexivity.
Qed.

Lemma of_uint64_nonneg n : 0 <= n -> float64.signed_as false (float64.of_uint64 n).
Proof.
  intros Hn. unfold float64.of_uint64, binary_normalize.
  destruct n as [|p|p]; [reflexivity| |lia].
  unfold binary_round.
  destruct (shl_align p 0 _) as [mz ez].
  apply binary_round_aux_sign. lia.
Qed.

(** The quotient of two non-negative numbers is a NaN or a non-negative
    number. *)
Lemma div_nonneg x y :
  float64.signed_as false x -> float64.signed_as false y ->
  float64.div x y = S754_nan \/ float64.signed_as false (float64.div x y).
Proof.
  unfold float64.div.
  destruct x as [sx|sx| |sx mx ex], y as [sy|sy| |sy my ey]; cbn [float64.signed_as];
    intros Hx Hy; try contradiction; subst; cbn [SFdiv xorb float64.signed_as]; auto.
  right. unfold SFdiv_core_binary.
  set (m' := match _ with Z0 => Z.pos mx | Z.pos _ => Z.shiftl (Z.pos mx) _ | Z.neg _ => 0 end).
  assert (Hm' : 0 <= m').
  { subst m'. destruct (ex - ey - _) eqn:E; try lia.
    apply Z.shiftl_nonneg. lia. }
  pose proof (Z.div_pos m' (Z.pos my) Hm' eq_refl) as Hq.
  unfold Z.div in Hq. destruct (Z.div_eucl m' (Z.pos my)) as [q r].
  apply binary_round_aux_sign. exact Hq.
Qed.

Lemma le_zero_nonneg x :
  float64.signed_as false x -> float64.le float64.zero x = true.
Proof.
  destruct x as [s|s| |s m e]; cbn; intros H; try contradiction; subst; reflexivity.
Qed.

(** Among the non-negative numbers, what is not above 1 is at most 1. *)
Lemma not_gt_one_le_one x :
  float64.signed_as false x ->
  float64.gt x float64.one = false -> float64.le x float64.one = true.
Proof.
  unfold float64.gt, float64.le, float64.one, SFltb, SFleb.
  destruct x as [s|s| |s m e]; cbn [float64.signed_as]; intros H; try contradiction;
    subst; cbn [SFcompare]; try reflexivity; try discriminate.
  rewrite (Z.compare_antisym (-52) e).
  destruct (-52 ?= e) eqn:E; cbn [CompOpp]; try reflexivity; try discriminate.
  pose proof (Pos.compare_cont_antisym 4503599627370496 m Eq) as Ha.
  cbn [CompOpp] in Ha. rewrite <- Ha.
  destruct (Pos.compare_cont Eq 4503599627370496 m); cbn; congruence.
Qed.

(** The progress is between 0 and 1 whatever the two counters are. *)
Lemma progressOf_range progress :
  0 <= ethereum.CurrentBlock progress ->
  0 <= ethereum.HighestBlock progress ->
  float64.le float64.zero (progressOf progress) = true
  /\ float64.le (progressOf progress) float64.one = true.
Proof.
  intros Hc Hh. unfold progressOf.
  destruct (div_nonneg _ _ (of_uint64_nonneg _ Hc) (of_uint64_nonneg _ Hh)) as [Hq|Hq].
  - rewrite Hq. split; reflexivity.
  - set (q := float64.div _ _) in *.
    destruct (float64.gt q float64.one) eqn:Hgt.
    + split; reflexivity.
    + assert (Hn : float64.IsNaN q = false) by (destruct q; [| |contradiction|]; reflexivity).
      rewrite Hn. split; [now apply le_zero_nonneg | now apply not_gt_one_le_one].
Qed.

(** The same progress, read as a clamp: 0 for the undefined quotient, 1 for
    a quotient above 1, the quotient otherwise. *)
Lemma progressOf_clamp progress :
  let q := float64.div (float64.of_uint64 (ethereum.CurrentBlock progress))
                       (float64.of_uint64 (ethereum.HighestBlock progress)) in
  progressOf progress
  = if float64.IsNaN q then float64.zero
    else if float64.gt q float64.one then float64.one
    else q.
Proof.
  cbv zeta. unfold progressOf.
  destruct (float64.div _ _) as [s|s| |s m e] eqn:Hq; cbn [float64.IsNaN];
    try reflexivity;
    match goal with
    | |- context [float64.gt ?x float64.one] => destruct (float64.gt x float64.one)
    end; reflexivity.
Qed.

Section ProgressFacts.

Context `{L : Library}.

(** C7. For a node that reports a sync in progress with counters current
    and highest, the probe answers isWorking = true, isSynced = false and a
    progress p with 0 <= p <= 1: p is the quotient of the two counters as
    float64 values, replaced by 1 when it is above 1 and by 0 when it is
    undefined. In particular 0/0 gives exactly 0 and 150/100 gives 1. *)
Theorem probe_progress_in_unit_interval client s progress w1 :
  ethclient_SyncProgress client (world s) = (Some progress, None, w1) ->
  uint64 (ethereum.CurrentBlock progress) ->
  uint64 (ethereum.HighestBlock progress) ->
  let st := fst (checkClientStatus client s) in
  let q := float64.div (float64.of_uint64 (ethereum.CurrentBlock progress))
                       (float64.of_uint64 (ethereum.HighestBlock progress)) in
  api.IsWorking st = true
  /\ api.IsSynced st = false
  /\ float64.le float64.zero (api.SyncProgress st) = true
  /\ float64.le (api.SyncProgress st) float64.one = true
  /\ api.SyncProgress st
     = (if float64.IsNaN q then float64.zero
        else if float64.gt q float64.one then float64.one
        else q)
  /\ progressOf {| ethereum.CurrentBlock := 0; ethereum.HighestBlock := 0 |}
     = float64.zero
  /\ progressOf {| ethereum.CurrentBlock := 150; ethereum.HighestBlock := 100 |}
     = float64.one.
Proof.
  intros Hsp [Hc _] [Hh _]. cbv zeta.
  assert (Hst : fst (checkClientStatus client s)
                = {| api.IsWorking := true; api.IsSynced := false;
                     api.SyncProgress := progressOf progress;
                     api.Error := EmptyString |}).
  { unfold checkClientStatus, bind, emit, remote, ret. cbn. rewrite Hsp. reflexivity. }
  rewrite Hst. cbn [api.IsWorking api.IsSynced api.SyncProgress].
  destruct (progressOf_range progress Hc Hh) as [H0 H1].
  split; [reflexivity|]. split; [reflexivity|].
  split; [exact H0|]. split; [exact H1|].
  split; [apply progressOf_clamp|].
  split; vm_compute; reflexivity.
Qed.

End ProgressFacts.

(** * The theorems at work on the small network *)

Import Lab.

(** C1, as stated, fails when the fallback is unreachable too. The call on
    the fallback returns the array of [TransactionByHash] together with the
    connection-refused error; the caller is handed nil together with "all
    execution clients failed": neither the result nor the error is the
    fallback's. *)
Lemma failover_result_is_not_always_fallback_result :
  primaryReady (mgr both_down) = true
  /\ fallbackReady (mgr both_down) = true
  /\ transactionByHash (primaryEc (mgr both_down)) (world both_down)
     = (Some (TxAndPending None false), Some (ClientError refused), world both_down)
  /\ isDisconnected (ClientError refused : error) = true
  /\ transactionByHash (fallbackEc (mgr both_down)) (world both_down)
     = (Some (TxAndPending None false), Some (ClientError refused), world both_down)
  /\ fst (runFunction_fuel 2 transactionByHash both_down)
     = Some (None, Some (Errorf "all execution clients failed"))
  /\ invoked (trace (snd (runFunction_fuel 2 transactionByHash both_down)))
     = [Some Primary; Some Fallback]
  /\ (None : iface) <> Some (TxAndPending None false)
  /\ Some (Errorf "all execution clients failed" : error)
     <> Some (ClientError refused).
Proof.
  repeat (split; [reflexivity|]). split; discriminate.
Qed.

(** The primary is down and the fallback healthy: [BlockNumber] answers
    12345 from the fallback. *)
Lemma dispatch_failover_witness :
  exists out s' evs,
    runFunction_fuel 2 blockNumber primary_down = (Some out, s')
    /\ out = (Some (Uint64 12345), None)
    /\ primaryReady (mgr s') = false
    /\ fallbackReady (mgr s') = true
    /\ world s' = net Down Healthy
    /\ trace s' = trace primary_down ++ evs
    /\ invoked evs = [Some Primary; Some Fallback].
Proof.
  exact (proj1 (dispatch_failover (L := lab)) 0%nat blockNumber primary_down
           None (ClientError refused) (net Down Healthy)
           (Some (Uint64 12345)) None (net Down Healthy)
           eq_refl eq_refl eq_refl eq_refl eq_refl).
Defined.

(** Both nodes healthy: a reverted call comes back from the primary as it
    is, nothing else happens. *)
Lemma dispatch_application_error_witness :
  runFunction_fuel 2 callContract all_well
  = (Some (None, Some (ClientError "execution reverted")),
     {| mgr := mgr all_well;
        world := net Healthy Healthy;
        trace := [Invoke (Some Primary)] |}).
Proof.
  exact (dispatch_application_error (L := lab) 1 callContract all_well (Some Primary)
           None (ClientError "execution reverted") (net Healthy Healthy)
           eq_refl eq_refl eq_refl).
Defined.

(** No flag set: the dispatch fails without touching anything. *)
Lemma dispatch_none_ready_witness :
  runFunction_fuel 2 blockNumber none_ready
  = (Some (None, Some (Errorf "no execution clients were ready")), none_ready).
Proof.
  exact (dispatch_none_ready (L := lab) 1 blockNumber none_ready eq_refl eq_refl).
Defined.

(** Only the fallback flag set and the fallback down. *)
Lemma dispatch_fallback_disconnected_witness :
  exists s' evs,
    runFunction_fuel 2 blockNumber fallback_only_down
    = (Some (None, Some (Errorf "all execution clients failed")), s')
    /\ primaryReady (mgr s') = false
    /\ fallbackReady (mgr s') = false
    /\ world s' = net Healthy Down
    /\ trace s' = trace fallback_only_down ++ evs
    /\ invoked evs = [Some Fallback].
Proof.
  exact (dispatch_fallback_disconnected (L := lab) 1 blockNumber fallback_only_down
           None (ClientError refused) (net Healthy Down)
           eq_refl eq_refl eq_refl eq_refl).
Defined.

(** With no flag set a dispatch sets none; a refresh of two healthy nodes
    sets both. *)
Lemma dispatch_never_promotes_witness :
  primaryReady (mgr none_ready) = false
  /\ fallbackReady (mgr none_ready) = false
  /\ primaryReady (mgr (snd (runFunction_fuel 2 blockNumber none_ready))) = false
  /\ primaryReady (mgr (snd (CheckStatus none_ready))) = true
  /\ fallbackReady (mgr (snd (CheckStatus none_ready))) = true.
Proof.
  split; [reflexivity|]. split; [reflexivity|]. split; [reflexivity|].
  pose proof (proj2 (dispatch_never_promotes (L := lab)) none_ready eq_refl) as [Hp Hf].
  split.
  - exact (Hp eq_refl eq_refl).
  - exact (Hf eq_refl eq_refl eq_refl).
Defined.

(** A live refresh of a stale primary and a headerless fallback clears both
    flags after probing both; a refresh in skip mode changes nothing. *)
Lemma refresh_status_witness :
  (primaryReady (mgr (snd (CheckStatus stale_and_headerless))) = false
   /\ fallbackReady (mgr (snd (CheckStatus stale_and_headerless))) = false
   /\ exists evs,
        trace (snd (CheckStatus stale_and_headerless)) = [] ++ evs
        /\ probed evs = [Some Primary; Some Fallback])
  /\
  (snd (CheckStatus none_ready_skip) = none_ready_skip
   /\ api.IsWorking (api.PrimaryEcStatus (fst (CheckStatus none_ready_skip))) = false).
Proof.
  split.
  - destruct (proj1 (refresh_status (L := lab) stale_and_headerless) eq_refl)
      as (_ & Hp & Hf & Hev).
    split; [exact Hp|]. split; [exact Hf|]. exact Hev.
  - destruct (proj2 (refresh_status (L := lab) none_ready_skip) eq_refl)
      as (Hs & _ & Hw & _).
    split; [exact Hs | exact Hw].
Defined.

(** Block 500 of 1000: the progress is one half. *)
Lemma probe_progress_in_unit_interval_witness :
  let st := fst (checkClientStatus (Some Primary) primary_syncing) in
  api.IsWorking st = true
  /\ api.IsSynced st = false
  /\ float64.le float64.zero (api.SyncProgress st) = true
  /\ float64.le (api.SyncProgress st) float64.one = true
  /\ api.SyncProgress st = S754_finite false 4503599627370496 (-53).
Proof.
  assert (H500 : uint64 500) by (unfold uint64; lia).
  assert (H1000 : uint64 1000) by (unfold uint64; lia).
  destruct (probe_progress_in_unit_interval (L := lab) (Some Primary) primary_syncing
              {| ethereum.CurrentBlock := 500; ethereum.HighestBlock := 1000 |}
              (net (Syncing 500 1000) Healthy) eq_refl H500 H1000)
    as (Hw & Hs & H0 & H1 & Hq & _).
  cbv zeta. split; [exact Hw|]. split; [exact Hs|]. split; [exact H0|].
  split; [exact H1|]. rewrite Hq. vm_compute. reflexivity.
Defined.

(** The stale primary works but is not synced; the fallback whose header
    cannot be fetched does not work. *)
Lemma probe_claims_synced_witness :
  (api.IsWorking (fst (checkClientStatus (Some Primary) stale_and_headerless)) = true
   /\ api.IsSynced (fst (checkClientStatus (Some Primary) stale_and_headerless)) = false
   /\ api.Error (fst (checkClientStatus (Some Primary) stale_and_headerless))
      = "Client claims to have finished syncing, but its last block was from 13m0s ago. It likely doesn't have enough peers")
  /\
  (api.IsWorking (fst (checkClientStatus (Some Fallback) stale_and_headerless)) = false
   /\ api.Error (fst (checkClientStatus (Some Fallback) stale_and_headerless))
      = "Error checking if client's sync progress is up to date: [header not found]").
Proof.
  split.
  - destruct (proj1 (probe_claims_synced (L := lab) (Some Primary) stale_and_headerless
                       (net Stale NoHeader) eq_refl)
                1700000000 (net Stale NoHeader) eq_refl)
      as (Hw & Hs & He & _).
    split; [exact Hw|]. split; [exact Hs | exact He].
  - exact (proj2 (probe_claims_synced (L := lab) (Some Fallback) stale_and_headerless
                    (net Stale NoHeader) eq_refl)
             false 0 (ClientError "header not found") (net Stale NoHeader) eq_refl).
Defined.

(** The refused connection is a disconnection, on either handle; the
    reverted call is not. *)
Lemma disconnected_iff_dial_tcp_witness :
  isDisconnected (ClientError refused : error) = true
  /\ runFunction_fuel 2 blockNumber primary_down
     = runFunction_fuel 1 blockNumber
         (primary_demoted (ClientError refused) (net Down Healthy) primary_down)
  /\ runFunction_fuel 2 callContract all_well
     = (Some (None, Some (ClientError "execution reverted")),
        after_call (Some Primary) (net Healthy Healthy) all_well)
  /\ runFunction_fuel 1 blockNumber fallback_only_down
     = (Some (None, Some (Errorf "all execution clients failed")),
        fallback_demoted (ClientError refused) (net Healthy Down) fallback_only_down).
Proof.
  assert (Hm : mentions_dial_tcp (Error (ClientError refused : error))).
  { exists "Post http://eth1:8545: ", " 172.18.0.3:8545: connect: connection refused".
    reflexivity. }
  assert (Hn : ~ mentions_dial_tcp (Error (ClientError "execution reverted" : error))).
  { apply isDisconnected_false. reflexivity. }
  destruct (disconnected_iff_dial_tcp (L := lab)) as (Hiff & Hprim & Hfall).
  split; [exact (proj2 (Hiff _) Hm)|].
  split; [exact (proj1 (Hprim 0%nat blockNumber primary_down None _ _ eq_refl eq_refl) Hm)|].
  split; [exact (proj2 (Hprim 0%nat callContract all_well None _ _ eq_refl eq_refl) Hn)|].
  exact (proj1 (Hfall 0%nat blockNumber fallback_only_down None _ _
                  eq_refl eq_refl eq_refl) Hm).
Defined.

(** * More about a dispatch *)

Section DispatchRelation.

Context `{L : Library}.

(** With the primary flag cleared a run on fuel 1 follows one of the four
    rules of the fallback. *)
Lemma run_demoted_Dispatch n function s :
  primaryReady (mgr s) = false ->
  exists out s',
    runFunction_fuel (S n) function s = (Some out, s')
    /\ Dispatch function s out s'.
Proof.
  intros Hp. destruct (fallbackReady (mgr s)) eqn:Hb.
  - destruct (function (fallbackEc (mgr s)) (world s)) as [[r [err|]] w] eqn:Hf.
    + destruct (isDisconnected err) eqn:Hd.
      * rewrite (run_fallback_disconnected _ _ _ _ _ _ Hp Hb Hf Hd).
        eexists _, _. split; [reflexivity|]. eapply Dispatch_fallback_disconnected; eassumption.
      * rewrite (run_fallback_error _ _ _ _ _ _ Hp Hb Hf Hd).
        eexists _, _. split; [reflexivity|]. eapply Dispatch_fallback_error; eassumption.
    + rewrite (run_fallback_ok _ _ _ _ _ Hp Hb Hf).
      eexists _, _. split; [reflexivity|]. eapply Dispatch_fallback_ok; eassumption.
  - rewrite (run_none_ready _ _ _ Hp Hb).
    eexists _, _. split; [reflexivity|]. now apply Dispatch_none_ready.
Qed.

(** Every run on fuel 2 or more returns, and what it returns follows the
    rules. *)
Lemma run_Dispatch n function s :
  exists out s',
    runFunction_fuel (S (S n)) function s = (Some out, s')
    /\ Dispatch function s out s'.
Proof.
  destruct (primaryReady (mgr s)) eqn:Hp.
  - destruct (function (primaryEc (mgr s)) (world s)) as [[r [err|]] w] eqn:Hf.
    + destruct (isDisconnected err) eqn:Hd.
      * rewrite (run_primary_disconnected _ _ _ _ _ _ Hp Hf Hd).
        destruct (run_demoted_Dispatch n function (primary_demoted err w s) eq_refl)
          as (out & s' & Hrun & HD).
        exists out, s'. split; [exact Hrun|].
        eapply Dispatch_primary_disconnected; eassumption.
      * rewrite (run_primary_error _ _ _ _ _ _ Hp Hf Hd).
        eexists _, _. split; [reflexivity|]. eapply Dispatch_primary_error; eassumption.
    + rewrite (run_primary_ok _ _ _ _ _ Hp Hf).
      eexists _, _. split; [reflexivity|]. eapply Dispatch_primary_ok; eassumption.
  - apply run_demoted_Dispatch. exact Hp.
Qed.

(** The rules leave no choice. *)
Lemma Dispatch_deterministic function s out1 s1 out2 s2 :
  Dispatch function s out1 s1 -> Dispatch function s out2 s2 ->
  out1 = out2 /\ s1 = s2.
Proof.
  intros HD1. revert out2 s2.
  induction HD1; intros out2 s2 HD2; inversion HD2; subst;
    try congruence;
    repeat match goal with
           | Ha : function ?c ?w = _, Hb : function ?c ?w = _ |- _ =>
               rewrite Ha in Hb; inversion Hb; subst; clear Hb
           end;
    try congruence; try (split; reflexivity).
  apply IHHD1. assumption.
Qed.

(** So the rules say exactly what a run returns. *)
Lemma run_iff_Dispatch n function s out s' :
  runFunction_fuel (S (S n)) function s = (Some out, s')
  <-> Dispatch function s out s'.
Proof.
  destruct (run_Dispatch n function s) as (out0 & s0 & Hrun & HD). split.
  - intros H. rewrite Hrun in H. now inversion H; subst.
  - intros H. destruct (Dispatch_deterministic _ _ _ _ _ _ HD H) as [-> ->].
    exact Hrun.
Qed.

End DispatchRelation.

Section DispatchProperties.

Context `{L : Library}.

Lemma invoked_app (evs1 evs2 : list Event) :
  invoked (evs1 ++ evs2) = invoked evs1 ++ invoked evs2.
Proof.
  induction evs1 as [|[c|l|c|c] evs1 IH]; cbn; now rewrite ?IH.
Qed.

Lemma Dispatch_calls function s out s' :
  Dispatch function s out s' ->
  exists evs,
    trace s' = trace s ++ evs
    /\ invoked evs
       = (if primaryReady (mgr s) then [primaryEc (mgr s)] else [])
         ++ (if fallbackReady (mgr s) && negb (primaryReady (mgr s'))
             then [fallbackEc (mgr s)] else []).
Proof.
  induction 1 as [s r w Hp Hf|s r err w Hp Hf Hd|s r err w out s' Hp Hf Hd HD IH
                 |s r w Hp Hb Hf|s r err w Hp Hb Hf Hd|s r err w Hp Hb Hf Hd|s Hp Hb].
  - eexists. split; [reflexivity|]. cbn. rewrite Hp, Bool.andb_false_r. reflexivity.
  - eexists. split; [reflexivity|]. cbn. rewrite Hp, Bool.andb_false_r. reflexivity.
  - destruct IH as (evs & Htr & Hinv). cbn in Htr, Hinv.
    eexists. rewrite Htr, <- app_assoc. split; [reflexivity|].
    rewrite invoked_app, Hinv, Hp. reflexivity.
  - eexists. split; [reflexivity|]. cbn. rewrite Hp, Hb. reflexivity.
  - eexists. split; [reflexivity|]. cbn. rewrite Hp, Hb. reflexivity.
  - eexists. split; [reflexivity|]. cbn. rewrite Hp, Hb. reflexivity.
  - exists []. rewrite app_nil_r, Hp, Hb. split; reflexivity.
Qed.

(** X1. Which handles a dispatch calls can be read off the flags before and
    after it: the primary first, if its flag was set; then the fallback, if
    its flag was set and the primary flag is clear afterwards. No handle is
    called twice, and the fallback is never called before the primary. *)
Theorem dispatch_handles_called n function s :
  exists evs,
    trace (snd (runFunction_fuel (S (S n)) function s)) = trace s ++ evs
    /\ invoked evs
       = (if primaryReady (mgr s) then [primaryEc (mgr s)] else [])
         ++ (if fallbackReady (mgr s)
                && negb (primaryReady
                           (mgr (snd (runFunction_fuel (S (S n)) function s))))
             then [fallbackEc (mgr s)] else []).
Proof.
  destruct (run_Dispatch n function s) as (out & s' & Hrun & HD).
  rewrite Hrun. cbn [snd]. exact (Dispatch_calls _ _ _ _ HD).
Qed.

Lemma Dispatch_error function s res err s' :
  Dispatch function s (res, Some err) s' ->
  res = None
  /\ isDisconnected err = false
  /\ (err = Errorf "no execution clients were ready"
      \/ err = Errorf "all execution clients failed"
      \/ exists client w0 r,
           function client w0 = (r, Some err, world s')).
Proof.
  intros HD. remember (res, Some err) as out eqn:Hout. revert res err Hout.
  induction HD as [s r w Hp Hf|s r e w Hp Hf Hd|s r e w out s' Hp Hf Hd HD IH
                  |s r w Hp Hb Hf|s r e w Hp Hb Hf Hd|s r e w Hp Hb Hf Hd|s Hp Hb];
    intros res err Hout; inversion Hout; subst.
  - split; [reflexivity|]. split; [exact Hd|]. right; right. eauto.
  - now apply IH.
  - split; [reflexivity|]. split; [exact Hd|]. right; right. eauto.
  - split; [reflexivity|]. split; [reflexivity|]. right; left; reflexivity.
  - split; [reflexivity|]. split; [reflexivity|]. left; reflexivity.
Qed.

(** X2. Whenever a dispatch returns an error, the result beside it is nil and
    the error is not a disconnection: the caller never sees a "dial tcp"
    error. It is one of the manager's own two errors, or an error the
    function returned on one of the handles. *)
Theorem dispatch_error_shape n function s res err s' :
  runFunction_fuel (S (S n)) function s = (Some (res, Some err), s') ->
  res = None
  /\ isDisconnected err = false
  /\ (err = Errorf "no execution clients were ready"
      \/ err = Errorf "all execution clients failed"
      \/ exists client w0 r,
           function client w0 = (r, Some err, world s')).
Proof.
  intros Hrun. apply run_iff_Dispatch in Hrun. exact (Dispatch_error _ _ _ _ _ Hrun).
Qed.

Lemma Dispatch_success function s res s' :
  Dispatch function s (res, None) s' ->
  exists client w0 evs,
    function client w0 = (res, None, world s')
    /\ trace s' = trace s ++ evs ++ [Invoke client]
    /\ mgr s' = (if primaryReady (mgr s) && negb (primaryReady (mgr s'))
                 then with_primaryReady false (mgr s) else mgr s)
    /\ client = (if primaryReady (mgr s') then primaryEc (mgr s)
                 else fallbackEc (mgr s)).
Proof.
  intros HD. remember (res, None) as out eqn:Hout. revert res Hout.
  induction HD as [s r w Hp Hf|s r e w Hp Hf Hd|s r e w out s' Hp Hf Hd HD IH
                  |s r w Hp Hb Hf|s r e w Hp Hb Hf Hd|s r e w Hp Hb Hf Hd|s Hp Hb];
    intros res Hout; inversion Hout; subst.
  - exists (primaryEc (mgr s)), (world s), []. cbn. rewrite Hp. cbn. auto.
  - destruct (IH _ eq_refl) as (client & w0 & evs & Hc & Htr & Hm & Hcl).
    cbn [primary_demoted mgr world trace primaryReady with_primaryReady primaryEc
         fallbackEc andb] in Hm, Hcl.
    assert (Hp' : primaryReady (mgr s') = false) by (rewrite Hm; reflexivity).
    assert (Hpre : exists pre, trace (primary_demoted e w s) = trace s ++ pre)
      by (eexists; reflexivity).
    destruct Hpre as [pre Hpre].
    exists client, w0, (pre ++ evs). split; [exact Hc|].
    rewrite Htr, Hpre, <- !app_assoc. split; [reflexivity|].
    rewrite Hp, Hp'. cbn. split; [exact Hm|]. rewrite Hp' in Hcl. exact Hcl.
  - exists (fallbackEc (mgr s)), (world s), []. cbn. rewrite Hp. cbn. auto.
Qed.

(** X3. Whenever a dispatch returns without error, its result is what the
    function returned, without error, on the last handle called, and the
    world is as that call left it. That handle is the primary if the
    primary flag is still set and the fallback otherwise; the fallback flag
    is as before, and the primary flag has been cleared only if the answer
    came from the fallback after a disconnected primary. *)
Theorem dispatch_success_shape n function s res s' :
  runFunction_fuel (S (S n)) function s = (Some (res, None), s') ->
  exists client w0 evs,
    function client w0 = (res, None, world s')
    /\ trace s' = trace s ++ evs ++ [Invoke client]
    /\ mgr s' = (if primaryReady (mgr s) && negb (primaryReady (mgr s'))
                 then with_primaryReady false (mgr s) else mgr s)
    /\ client = (if primaryReady (mgr s') then primaryEc (mgr s)
                 else fallbackEc (mgr s)).
Proof.
  intros Hrun. apply run_iff_Dispatch in Hrun. exact (Dispatch_success _ _ _ _ Hrun).
Qed.

(** X4. With the fallback flag clear (no fallback configured, or one
    demoted earlier), a disconnected primary leaves the caller with "no
    execution clients were ready": the primary is demoted, it is the only
    handle called, and both flags are clear afterwards. *)
Theorem dispatch_primary_disconnected_no_fallback n function s r err w :
  primaryReady (mgr s) = true ->
  fallbackReady (mgr s) = false ->
  function (primaryEc (mgr s)) (world s) = (r, Some err, w) ->
  isDisconnected err = true ->
  runFunction_fuel (S (S n)) function s
  = (Some (None, Some (Errorf "no execution clients were ready")),
     primary_demoted err w s)
  /\ primaryReady (mgr (primary_demoted err w s)) = false
  /\ fallbackReady (mgr (primary_demoted err w s)) = false
  /\ invoked [Invoke (primaryEc (mgr s));
              Printlnf ("WARNING: Primary execution client disconnected ("
                          ++ Error err ++ "), using fallback...")%string]
     = [primaryEc (mgr s)].
Proof.
  intros Hp Hb Hf Hd.
  rewrite (run_primary_disconnected _ _ _ _ _ _ Hp Hf Hd).
  rewrite run_none_ready by (reflexivity || exact Hb).
  repeat split. exact Hb.
Qed.

(** X5. After a dispatch in which both handles were disconnected, every
    later dispatch, of any function, fails at once with "no execution
    clients were ready" and calls no handle: nothing but a refresh brings
    the manager back. *)
Theorem dispatch_fails_fast_after_total_failure
    n function s r1 e1 w1 r2 e2 w2 :
  primaryReady (mgr s) = true ->
  fallbackReady (mgr s) = true ->
  function (primaryEc (mgr s)) (world s) = (r1, Some e1, w1) ->
  isDisconnected e1 = true ->
  function (fallbackEc (mgr s)) w1 = (r2, Some e2, w2) ->
  isDisconnected e2 = true ->
  forall m function',
    let s1 := snd (runFunction_fuel (S (S n)) function s) in
    runFunction_fuel (S m) function' s1
    = (Some (None, Some (Errorf "no execution clients were ready")), s1).
Proof.
  intros Hp Hb Hf1 Hd1 Hf2 Hd2 m function'. cbv zeta.
  rewrite (run_primary_disconnected _ _ _ _ _ _ Hp Hf1 Hd1).
  rewrite (run_fallback_disconnected n function (primary_demoted e1 w1 s) r2 e2 w2)
    by (reflexivity || assumption).
  cbn [snd]. apply run_none_ready; reflexivity.
Qed.

End DispatchProperties.

(** * What the manager keeps *)

Section ManagerInvariants.

Context `{L : Library}.

Lemma same_but_flags_refl (p : ExecutionClientManager) : same_but_flags p p.
Proof. repeat split. Qed.

Lemma same_but_flags_trans (p q r : ExecutionClientManager) :
  same_but_flags p q -> same_but_flags q r -> same_but_flags p r.
Proof.
  unfold same_but_flags. intros (A1 & A2 & A3 & A4 & A5) (B1 & B2 & B3 & B4 & B5).
  repeat split; congruence.
Qed.

Lemma Dispatch_frame function s out s' :
  Dispatch function s out s' -> same_but_flags (mgr s') (mgr s).
Proof.
  induction 1; try apply same_but_flags_refl.
  - eapply same_but_flags_trans; [eassumption|]. repeat split.
  - repeat split.
Qed.

Lemma Dispatch_flags function s out s' :
  Dispatch function s out s' ->
  Bool.le (primaryReady (mgr s')) (primaryReady (mgr s))
  /\ Bool.le (fallbackReady (mgr s')) (fallbackReady (mgr s)).
Proof.
  induction 1 as [s r w Hp Hf|s r err w Hp Hf Hd|s r err w out s' Hp Hf Hd HD IH
                 |s r w Hp Hb Hf|s r err w Hp Hb Hf Hd|s r err w Hp Hb Hf Hd|s Hp Hb];
    cbn [after_call fallback_demoted mgr primaryReady fallbackReady
         with_fallbackReady];
    try (split; apply Bool.le_implb, Bool.implb_same).
  - destruct IH as [IH1 IH2]. cbn in IH1, IH2. rewrite Hp. split; [|exact IH2].
    destruct (primaryReady (mgr s')); [reflexivity | exact I].
  - rewrite Hb. split; [apply Bool.le_implb, Bool.implb_same | exact I].
Qed.

(** A probe depends on the world alone: the manager it finds is the
    manager it leaves, and the status, the world and the events it adds
    are the same for any manager and any earlier trace. *)
Lemma checkClientStatus_world client s :
  exists st w evs,
    forall p tr,
      checkClientStatus client {| mgr := p; world := world s; trace := tr |}
      = (st, {| mgr := p; world := w; trace := tr ++ evs |}).
Proof.
  unfold checkClientStatus, bind, emit, remote, ret. cbn.
  destruct (ethclient_SyncProgress client (world s)) as [[[pr|] [err|]] w1]; cbn;
    try (eexists _, _, _; intros p tr; reflexivity).
  destruct (IsSyncWithinThreshold client w1) as [[[up bt] [err|]] w2]; cbn.
  - eexists _, _, [_; _]. intros p tr. rewrite <- app_assoc. reflexivity.
  - destruct up; cbn; eexists _, _, [_; _]; intros p tr; rewrite <- app_assoc;
      reflexivity.
Qed.

Lemma run_frame fuel function s :
  same_but_flags (mgr (snd (runFunction_fuel fuel function s))) (mgr s).
Proof.
  destruct fuel as [|[|n]].
  - apply same_but_flags_refl.
  - destruct (primaryReady (mgr s)) eqn:Hp.
    + destruct (function (primaryEc (mgr s)) (world s)) as [[r [err|]] w] eqn:Hf.
      * destruct (isDisconnected err) eqn:Hd.
        -- rewrite (run_primary_disconnected _ _ _ _ _ _ Hp Hf Hd). repeat split.
        -- rewrite (run_primary_error _ _ _ _ _ _ Hp Hf Hd). repeat split.
      * rewrite (run_primary_ok _ _ _ _ _ Hp Hf). repeat split.
    + destruct (run_demoted_Dispatch 0 function s Hp) as (out & s' & Hrun & HD).
      rewrite Hrun. exact (Dispatch_frame _ _ _ _ HD).
  - destruct (run_Dispatch n function s) as (out & s' & Hrun & HD).
    rewrite Hrun. exact (Dispatch_frame _ _ _ _ HD).
Qed.

Lemma CheckStatus_frame s : same_but_flags (mgr (snd (CheckStatus s))) (mgr s).
Proof.
  destruct (ignoreSyncCheck (mgr s)) eqn:Hi.
  - rewrite (CheckStatus_skip s Hi). apply same_but_flags_refl.
  - rewrite (CheckStatus_live s Hi). cbn [snd mgr].
    destruct (checkClientStatus_frame (primaryEc (mgr s)) s) as [Hm1 _].
    destruct (isNil (fallbackEc (mgr s))); cbn [negb snd].
    + rewrite Hm1. repeat split.
    + destruct (checkClientStatus_frame (fallbackEc (mgr s))
                  (snd (checkClientStatus (primaryEc (mgr s)) s))) as [Hm2 _].
      rewrite Hm2, Hm1. repeat split.
Qed.

(** What a refresh probes: the primary, then the fallback if there is one;
    nothing in the mode that skips the live check. *)
Lemma CheckStatus_probes s :
  exists evs,
    trace (snd (CheckStatus s)) = trace s ++ evs
    /\ probed evs
       = if ignoreSyncCheck (mgr s) then []
         else primaryEc (mgr s)
              :: (if isNil (fallbackEc (mgr s)) then [] else [fallbackEc (mgr s)]).
Proof.
  destruct (ignoreSyncCheck (mgr s)) eqn:Hi.
  - rewrite (CheckStatus_skip s Hi). exists []. now rewrite app_nil_r.
  - rewrite (CheckStatus_live s Hi). cbn [snd trace].
    destruct (checkClientStatus_frame (primaryEc (mgr s)) s) as (_ & evs1 & Ht1 & Hp1).
    destruct (isNil (fallbackEc (mgr s))); cbn [negb snd].
    + exists evs1. split; assumption.
    + destruct (checkClientStatus_frame (fallbackEc (mgr s))
                  (snd (checkClientStatus (primaryEc (mgr s)) s)))
        as (_ & evs2 & Ht2 & Hp2).
      exists (evs1 ++ evs2). rewrite Ht2, Ht1, <- app_assoc. split; [reflexivity|].
      now rewrite probed_app, Hp1, Hp2.
Qed.

(** X6. Neither a dispatch nor a refresh ever touches anything of the
    manager but the two readiness flags: the URLs, the two handles and the
    skip-live-check mode are the same afterwards, on any fuel, function and
    state. *)
Theorem manager_changes_only_flags fuel function s :
  same_but_flags (mgr (snd (runFunction_fuel fuel function s))) (mgr s)
  /\ same_but_flags (mgr (snd (CheckStatus s))) (mgr s).
Proof.
  split; [apply run_frame | apply CheckStatus_frame].
Qed.

Lemma handles_ok_flags (p q : ExecutionClientManager) :
  same_but_flags q p ->
  Bool.le (fallbackReady q) (fallbackReady p) ->
  handles_ok p -> handles_ok q.
Proof.
  unfold handles_ok, same_but_flags.
  intros (_ & _ & E3 & E4 & _) Hle [H1 H2]. rewrite E3, E4. split; [exact H1|].
  intros Hq. rewrite Hq in Hle. apply H2. exact Hle.
Qed.

Lemma run_handles_ok n function s :
  handles_ok (mgr s) ->
  handles_ok (mgr (snd (runFunction_fuel (S (S n)) function s))).
Proof.
  intros Hok. destruct (run_Dispatch n function s) as (out & s' & Hrun & HD).
  rewrite Hrun. cbn [snd].
  apply (handles_ok_flags (mgr s)); [exact (Dispatch_frame _ _ _ _ HD)| |exact Hok].
  exact (proj2 (Dispatch_flags _ _ _ _ HD)).
Qed.

Lemma CheckStatus_handles_ok s :
  handles_ok (mgr s) -> handles_ok (mgr (snd (CheckStatus s))).
Proof.
  intros Hok. pose proof Hok as [Hprim Hfall].
  destruct (ignoreSyncCheck (mgr s)) eqn:Hi.
  - rewrite (CheckStatus_skip s Hi). exact Hok.
  - pose proof (CheckStatus_frame s) as (_ & _ & E3 & E4 & _).
    split; [rewrite E3; exact Hprim|]. rewrite E4.
    rewrite (CheckStatus_live s Hi). cbn [snd mgr fallbackReady with_fallbackReady].
    destruct (isNil (fallbackEc (mgr s))); [discriminate | reflexivity].
Qed.

(** X7. If the primary handle is not nil and the fallback handle is not
    nil whenever the fallback flag is set, as the constructor leaves them,
    then this still holds after any dispatch and after any refresh, and
    no dispatch ever runs its function on a nil handle and no refresh ever
    probes one. *)
Theorem handles_never_nil n function s :
  handles_ok (mgr s) ->
  handles_ok (mgr (snd (runFunction_fuel (S (S n)) function s)))
  /\ handles_ok (mgr (snd (CheckStatus s)))
  /\ (exists evs,
        trace (snd (runFunction_fuel (S (S n)) function s)) = trace s ++ evs
        /\ Forall (fun client => isNil client = false) (invoked evs))
  /\ (exists evs,
        trace (snd (CheckStatus s)) = trace s ++ evs
        /\ Forall (fun client => isNil client = false) (probed evs)).
Proof.
  intros Hok. pose proof Hok as [Hprim Hfall].
  split; [exact (run_handles_ok n function s Hok)|].
  split; [exact (CheckStatus_handles_ok s Hok)|]. split.
  - destruct (run_Dispatch n function s) as (out & s' & Hrun & HD).
    rewrite Hrun. cbn [snd].
    destruct (Dispatch_calls _ _ _ _ HD) as (evs & Htr & Hinv).
    exists evs. split; [exact Htr|]. rewrite Hinv.
    apply Forall_app. split.
    + destruct (primaryReady (mgr s)); repeat constructor. exact Hprim.
    + destruct (fallbackReady (mgr s)) eqn:Hb; cbn [andb]; [|constructor].
      destruct (negb (primaryReady (mgr s'))); repeat constructor. now apply Hfall.
  - destruct (CheckStatus_probes s) as (evs & Htr & Hpr).
    exists evs. split; [exact Htr|]. rewrite Hpr.
    destruct (ignoreSyncCheck (mgr s)); [constructor|].
    destruct (isNil (fallbackEc (mgr s))) eqn:Hn; repeat constructor; assumption.
Qed.

(** X8. A live refresh forgets the flags it finds: started from two states
    that differ only in the two flags, it returns the same status and
    leaves the same state, flags included. *)
Theorem refresh_ignores_old_flags s primaryReady' fallbackReady' :
  ignoreSyncCheck (mgr s) = false ->
  CheckStatus
    {| mgr := with_fallbackReady fallbackReady'
                (with_primaryReady primaryReady' (mgr s));
       world := world s;
       trace := trace s |}
  = CheckStatus s.
Proof.
  intros Hi.
  rewrite (CheckStatus_live s Hi).
  rewrite CheckStatus_live by exact Hi.
  cbn [mgr world trace primaryEc fallbackEc with_fallbackReady with_primaryReady].
  destruct (checkClientStatus_world (primaryEc (mgr s)) s) as (st1 & w1 & evs1 & H1).
  pose proof (H1 (mgr s) (trace s)) as H1a.
  pose proof (H1 (with_fallbackReady fallbackReady'
                    (with_primaryReady primaryReady' (mgr s))) (trace s)) as H1b.
  assert (Hs : {| mgr := mgr s; world := world s; trace := trace s |} = s)
    by (destruct s; reflexivity).
  rewrite Hs in H1a. rewrite H1a, H1b. cbn [fst snd].
  destruct (isNil (fallbackEc (mgr s))); cbn [negb fst snd mgr world trace].
  - reflexivity.
  - destruct (checkClientStatus_world (fallbackEc (mgr s))
                {| mgr := mgr s; world := w1; trace := trace s ++ evs1 |})
      as (st2 & w2 & evs2 & H2).
    cbn [world] in H2.
    rewrite (H2 (mgr s) (trace s ++ evs1)).
    rewrite (H2 (with_fallbackReady fallbackReady'
                   (with_primaryReady primaryReady' (mgr s))) (trace s ++ evs1)).
    reflexivity.
Qed.

End ManagerInvariants.

(** * More about a probe *)

Section ProbeProperties.

Context `{L : Library}.

(** X9. What a probe reports is coherent. A status that says synced also
    says working, carries no message and has progress 0 (not 1); a status
    that says not working says not synced, has progress 0 and always
    carries a message; and a status with a sync in progress never carries
    one. *)
Theorem probe_status_coherent client s :
  let st := fst (checkClientStatus client s) in
  (api.IsSynced st = true ->
   api.IsWorking st = true /\ api.Error st = EmptyString
   /\ api.SyncProgress st = float64.zero)
  /\ (api.IsWorking st = false ->
      api.IsSynced st = false /\ api.Error st <> EmptyString
      /\ api.SyncProgress st = float64.zero)
  /\ (forall progress w,
        ethclient_SyncProgress client (world s) = (Some progress, None, w) ->
        api.Error st = EmptyString).
Proof.
  cbv zeta. unfold checkClientStatus, bind, emit, remote, ret. cbn.
  destruct (ethclient_SyncProgress client (world s)) as [[[pr|] [err|]] w1]; cbn.
  - repeat split; try discriminate; intros; discriminate.
  - repeat split; try discriminate; intros; discriminate.
  - repeat split; try discriminate; intros; discriminate.
  - destruct (IsSyncWithinThreshold client w1) as [[[up bt] [err|]] w2]; cbn.
    + repeat split; try discriminate; intros; discriminate.
    + destruct up; cbn; repeat split; try discriminate; intros; discriminate.
Qed.

(** X10. A probe says synced exactly when the node reports no sync in
    progress, without error, and the staleness check then answers, without
    error, that the latest block is recent. The staleness check is run
    only in the first of these cases, after the sync query, and a failed
    sync query is reported as not working with the text of its error. *)
Theorem probe_steps client s :
  let q := ethclient_SyncProgress client (world s) in
  let t := IsSyncWithinThreshold client (snd q) in
  let r := checkClientStatus client s in
  api.IsSynced (fst r)
  = match fst q with
    | (None, None) =>
        match fst t with
        | (isUpToDate, _, None) => isUpToDate
        | _ => false
        end
    | _ => false
    end
  /\ trace (snd r)
     = trace s ++ SyncProgressQuery client
                  :: match fst q with
                     | (None, None) => [ThresholdQuery client]
                     | _ => []
                     end
  /\ world (snd r)
     = match fst q with
       | (None, None) => snd t
       | _ => snd q
       end
  /\ match snd (fst q) with
     | Some err =>
         fst r
         = {| api.IsWorking := false; api.IsSynced := false;
              api.SyncProgress := float64.zero;
              api.Error := ("Sync progress check failed with ["
                              ++ Error err ++ "]")%string |}
     | None => api.IsWorking (fst r)
               = match fst q with
                 | (None, None) =>
                     match fst t with
                     | (_, _, None) => true
                     | _ => false
                     end
                 | _ => true
                 end
     end.
Proof.
  cbv zeta. unfold checkClientStatus, bind, emit, remote, ret. cbn.
  destruct (ethclient_SyncProgress client (world s)) as [[[pr|] [err|]] w1]; cbn;
    try (repeat split; reflexivity).
  destruct (IsSyncWithinThreshold client w1) as [[[up bt] [err|]] w2]; cbn.
  - rewrite <- app_assoc. repeat split; reflexivity.
  - destruct up; cbn; rewrite <- app_assoc; repeat split; reflexivity.
Qed.

End ProbeProperties.

(** * The exported operations *)

Section OperationFacts.

Context `{E : Ethclient}.





(** X13. [SubscribeFilterLogs] is the one operation that can panic: it
    does when the method hands back a nil subscription without an error,
    since a nil interface value fails every type assertion. If the method
    never does that, the operation returns like the others. *)
Theorem subscribe_panics_on_nil_subscription n s ctx query ch :
  (forall w,
     primaryReady (mgr s) = true ->
     client_SubscribeFilterLogs (primaryEc (mgr s)) ctx query ch (world s)
     = (None, None, w) ->
     SubscribeFilterLogs (S n) ctx query ch s
     = (Panics, after_call (primaryEc (mgr s)) w s))
  /\
  ((forall client w0 w,
      client_SubscribeFilterLogs client ctx query ch w0 <> (None, None, w)) ->
   exists sub err s',
     SubscribeFilterLogs (S (S n)) ctx query ch s = (Returns (sub, err), s')
     /\ match err with
        | Some _ => sub = None
        | None =>
            exists client w0,
              client_SubscribeFilterLogs client ctx query ch w0
              = (sub, None, world s')
        end).
Proof.
  split.
  - intros w Hp Hm. unfold SubscribeFilterLogs, bind, ret.
    set (f := fun client w => _).
    assert (Hf : f (primaryEc (mgr s)) (world s) = (None, None, w))
      by (subst f; cbn beta; rewrite Hm; reflexivity).
    rewrite (run_primary_ok _ _ _ _ _ Hp Hf). reflexivity.
  - intros Hnn. unfold SubscribeFilterLogs, bind, ret.
    set (f := fun client w => _).
    destruct (run_Dispatch n f s) as ([res [err|]] & s' & Hrun & HD); rewrite Hrun.
    + exists None, (Some err), s'. split; reflexivity.
    + destruct (Dispatch_success _ _ _ _ HD) as (client & w0 & evs & Hc & _).
      subst f. cbn beta in Hc.
      destruct (client_SubscribeFilterLogs client ctx query ch w0)
        as [[[sub|] e] w'] eqn:Hm; inversion Hc; subst.
      * exists (Some sub), None, s'. cbn [assert_type]. rewrite unbox_box.
        split; [reflexivity|]. exists client, w0. exact Hm.
      * exfalso. exact (Hnn _ _ _ Hm).
Qed.

End OperationFacts.

(** * The constructor and the life of a manager *)

Section ConstructorFacts.

Context `{D : Dialer}.

(** X14. The constructor returns a manager or an error, never both and
    never neither. A manager it returns has the primary flag set, a
    primary handle that is not nil, the fallback flag set exactly when
    there is a fallback handle, and the skip-live-check mode off. There is
    a fallback handle exactly when the fallback URL is not empty: with the
    fallback switched off, or switched on with an empty external URL, the
    manager has none, and nothing reports it. *)
Theorem constructor_result cfg w :
  match fst (NewExecutionClientManager cfg w) with
  | (Some p, None) =>
      primaryReady p = true
      /\ fallbackReady p = negb (isNil (fallbackEc p))
      /\ handles_ok p
      /\ ignoreSyncCheck p = false
      /\ isNil (fallbackEc p) = string_is_empty (fallbackEcUrl p)
      /\ (config.UseFallbackExecutionClient cfg = false ->
          isNil (fallbackEc p) = true)
      /\ (config.UseFallbackExecutionClient cfg = true ->
          config.FallbackExecutionClientMode cfg = config.Mode_External ->
          config.FallbackExternalExecution_HttpUrl cfg = EmptyString ->
          isNil (fallbackEc p) = true)
  | (None, Some err) => True
  | _ => False
  end.
Proof.
  unfold NewExecutionClientManager.
  destruct (ethclient_Dial _ w) as [[primaryEc|err] w1]; cbn [fst]; [|exact I].
  set (fallbackEcUrl := if config.UseFallbackExecutionClient cfg then _ else _).
  destruct (string_is_empty fallbackEcUrl) eqn:Hempty; cbn [negb].
  - cbn. rewrite Hempty. unfold handles_ok. cbn.
    repeat split; try reflexivity; discriminate.
  - destruct (ethclient_Dial fallbackEcUrl w1) as [[fallbackEc|err] w2]; cbn [fst];
      [|exact I].
    cbn. rewrite Hempty. unfold handles_ok. cbn.
    split; [reflexivity|]. split; [reflexivity|]. split; [split; reflexivity|].
    split; [reflexivity|]. split; [reflexivity|].
    subst fallbackEcUrl. split.
    + intros Hu. rewrite Hu in Hempty. discriminate.
    + intros Hu Hm He. rewrite Hu, Hm in Hempty. cbn in Hempty.
      rewrite He in Hempty. discriminate.
Qed.

(** X15. When the primary cannot be dialled the constructor gives up with
    an error that names the primary URL and carries the text of the dial
    error, and the fallback is not dialled: the world is as the first
    dial left it. When the primary can be dialled but a fallback with a
    non-empty URL cannot, there is no manager either, and the error names
    the fallback URL. *)
Theorem constructor_errors cfg w :
  let primaryUrl :=
    if config.IsNativeMode cfg then config.Native_EcHttpUrl cfg
    else if config.Mode_eqb (config.ExecutionClientMode cfg) config.Mode_Local
    then containerUrl Eth1ContainerName (config.ExecutionCommon_HttpPort cfg)
    else config.ExternalExecution_HttpUrl cfg in
  let fallbackUrl :=
    if config.UseFallbackExecutionClient cfg then
      if config.Mode_eqb (config.FallbackExecutionClientMode cfg) config.Mode_Local
      then containerUrl Eth1FallbackContainerName
             (config.FallbackExecutionCommon_HttpPort cfg)
      else config.FallbackExternalExecution_HttpUrl cfg
    else EmptyString in
  (forall err w1,
     ethclient_Dial primaryUrl w = (inr err, w1) ->
     NewExecutionClientManager cfg w
     = (None,
        Some (Errorf ("error connecting to primary EC at [" ++ primaryUrl
                        ++ "]: " ++ Error err)%string),
        w1))
  /\
  (forall primaryEc w1 err w2,
     ethclient_Dial primaryUrl w = (inl primaryEc, w1) ->
     fallbackUrl <> EmptyString ->
     ethclient_Dial fallbackUrl w1 = (inr err, w2) ->
     NewExecutionClientManager cfg w
     = (None,
        Some (Errorf ("error connecting to fallback EC at [" ++ fallbackUrl
                        ++ "]: " ++ Error err)%string),
        w2)).
Proof.
  cbv zeta. split.
  - intros err w1 Hd. unfold NewExecutionClientManager. rewrite Hd. reflexivity.
  - intros primaryEc w1 err w2 Hd1 Hne Hd2. unfold NewExecutionClientManager.
    rewrite Hd1.
    match goal with
    | |- context [string_is_empty ?u] => destruct (string_is_empty u) eqn:He
    end.
    + exfalso. apply Hne.
      match type of He with
      | string_is_empty ?u = true => destruct u; [reflexivity | discriminate]
      end.
    + cbn [negb]. rewrite Hd2. reflexivity.
Qed.

End ConstructorFacts.

Section LifeFacts.

Context `{L : Library}.

Lemma acts_app l1 l2 s : acts (l1 ++ l2) s = acts l2 (acts l1 s).
Proof. unfold acts. apply fold_left_app. Qed.

Lemma act_frame a s : same_but_flags (mgr (act a s)) (mgr s).
Proof.
  destruct a as [function|]; cbn [act].
  - apply run_frame.
  - apply CheckStatus_frame.
Qed.

Lemma act_handles_ok a s : handles_ok (mgr s) -> handles_ok (mgr (act a s)).
Proof.
  intros Hok. destruct a as [function|]; cbn [act].
  - exact (run_handles_ok 0 function s Hok).
  - exact (CheckStatus_handles_ok s Hok).
Qed.

(** X16. However a manager is used, through any sequence of dispatches
    and refreshes, its URLs, its handles and its skip-live-check mode stay
    what they were, and if its handles were in order at the start (the
    primary not nil, the fallback not nil when its flag is set), they are
    in order at the end. *)
Theorem life_keeps_handles l s :
  same_but_flags (mgr (acts l s)) (mgr s)
  /\ (handles_ok (mgr s) -> handles_ok (mgr (acts l s))).
Proof.
  revert s. induction l as [|a l IH]; intros s.
  - split; [apply same_but_flags_refl | auto].
  - change (acts (a :: l) s) with (acts l (act a s)).
    destruct (IH (act a s)) as [IH1 IH2]. split.
    + eapply same_but_flags_trans; [exact IH1 | apply act_frame].
    + intros Hok. apply IH2, act_handles_ok, Hok.
Qed.

(** X17. Over any sequence of dispatches with no refresh in between, each
    readiness flag can only go from true to false: what was demoted stays
    demoted, whatever the functions and whatever they return. *)
Theorem calls_only_demote l s :
  forallb is_call l = true ->
  Bool.le (primaryReady (mgr (acts l s))) (primaryReady (mgr s))
  /\ Bool.le (fallbackReady (mgr (acts l s))) (fallbackReady (mgr s)).
Proof.
  revert s. induction l as [|a l IH]; intros s Hl.
  - split; apply Bool.le_implb, Bool.implb_same.
  - cbn [forallb] in Hl. apply andb_prop in Hl as [Ha Hl].
    change (acts (a :: l) s) with (acts l (act a s)).
    destruct (IH (act a s) Hl) as [IH1 IH2].
    destruct a as [function|]; [|discriminate]. cbn [act] in *.
    destruct (run_Dispatch 0 function s) as (out & s' & Hrun & HD).
    rewrite Hrun in *. cbn [snd] in *.
    destruct (Dispatch_flags _ _ _ _ HD) as [H1 H2]. split.
    + destruct (primaryReady (mgr (acts l s'))); [|exact I].
      cbn in IH1. rewrite IH1 in H1. exact H1.
    + destruct (fallbackReady (mgr (acts l s'))); [|exact I].
      cbn in IH2. rewrite IH2 in H2. exact H2.
Qed.

Lemma Bool_le_trans (a b c : bool) : Bool.le a b -> Bool.le b c -> Bool.le a c.
Proof. destruct a, b, c; cbn; auto; discriminate. Qed.

Lemma act_flags_skip a s :
  ignoreSyncCheck (mgr s) = true ->
  ignoreSyncCheck (mgr (act a s)) = true
  /\ Bool.le (primaryReady (mgr (act a s))) (primaryReady (mgr s))
  /\ Bool.le (fallbackReady (mgr (act a s))) (fallbackReady (mgr s)).
Proof.
  intros Hi. split.
  - destruct (act_frame a s) as (_ & _ & _ & _ & E). now rewrite E.
  - destruct a as [function|]; cbn [act].
    + destruct (run_Dispatch 0 function s) as (out & s' & Hrun & HD).
      rewrite Hrun. exact (Dispatch_flags _ _ _ _ HD).
    + rewrite (CheckStatus_skip s Hi). cbn [snd].
      split; apply Bool.le_implb, Bool.implb_same.
Qed.

(** X18. In the mode that skips the live check nothing ever promotes an
    endpoint: over any sequence of dispatches and refreshes each readiness
    flag can only go from true to false, so an endpoint demoted by one
    disconnection stays demoted for the life of the manager. *)
Theorem skip_mode_never_promotes l s :
  ignoreSyncCheck (mgr s) = true ->
  Bool.le (primaryReady (mgr (acts l s))) (primaryReady (mgr s))
  /\ Bool.le (fallbackReady (mgr (acts l s))) (fallbackReady (mgr s)).
Proof.
  revert s. induction l as [|a l IH]; intros s Hi.
  - split; apply Bool.le_implb, Bool.implb_same.
  - change (acts (a :: l) s) with (acts l (act a s)).
    destruct (act_flags_skip a s Hi) as (Hi' & H1 & H2).
    destruct (IH (act a s) Hi') as [IH1 IH2].
    split; eapply Bool_le_trans; eassumption.
Qed.

(** X19. A live refresh that finds the primary working and synced sends
    the next dispatch to the primary first, whatever the flags were
    before the refresh. *)
Theorem refresh_restores_primary n function s :
  ignoreSyncCheck (mgr s) = false ->
  api.IsWorking (fst (checkClientStatus (primaryEc (mgr s)) s)) = true ->
  api.IsSynced (fst (checkClientStatus (primaryEc (mgr s)) s)) = true ->
  exists evs,
    trace (snd (runFunction_fuel (S (S n)) function (snd (CheckStatus s))))
    = trace (snd (CheckStatus s)) ++ evs
    /\ hd_error (invoked evs) = Some (primaryEc (mgr s)).
Proof.
  intros Hi Hw Hs.
  assert (Hp : primaryReady (mgr (snd (CheckStatus s))) = true)
    by (rewrite (CheckStatus_live s Hi); cbn; now rewrite Hw, Hs).
  destruct (CheckStatus_frame s) as (_ & _ & E3 & _).
  destruct (run_Dispatch n function (snd (CheckStatus s))) as (out & s' & Hrun & HD).
  rewrite Hrun. cbn [snd].
  destruct (Dispatch_calls _ _ _ _ HD) as (evs & Htr & Hinv).
  exists evs. split; [exact Htr|]. rewrite Hinv, Hp, E3. reflexivity.
Qed.

End LifeFacts.

(** * Package [rewards] *)

Section TrimFacts.

Local Open Scope string_scope.

Lemma TrimRight_app_cut s c cutset :
  strings.in_cutset c cutset = true ->
  strings.TrimRight (s ++ String c "") cutset = strings.TrimRight s cutset.
Proof.
  intros Hc. induction s as [|d s IH]; cbn.
  - now rewrite Hc.
  - now rewrite IH.
Qed.

Lemma Trim_app_cut s c cutset :
  strings.in_cutset c cutset = true ->
  strings.Trim (s ++ String c "") cutset = strings.Trim s cutset.
Proof.
  intros Hc. unfold strings.Trim. induction s as [|d s IH]; cbn.
  - now rewrite Hc.
  - destruct (strings.in_cutset d cutset); [exact IH|].
    exact (TrimRight_app_cut (String d s) c cutset Hc).
Qed.

Lemma Trim_cons_cut s c cutset :
  strings.in_cutset c cutset = true ->
  strings.Trim (String c s) cutset = strings.Trim s cutset.
Proof.
  intros Hc. unfold strings.Trim. cbn. now rewrite Hc.
Qed.

Lemma TrimLeft_free s cutset :
  strings.free_of s cutset = true -> strings.TrimLeft s cutset = s.
Proof.
  destruct s as [|c s]; cbn; [reflexivity|].
  destruct (strings.in_cutset c cutset); [discriminate | reflexivity].
Qed.

Lemma TrimRight_free s cutset :
  strings.free_of s cutset = true -> strings.TrimRight s cutset = s.
Proof.
  induction s as [|c s IH]; cbn; [reflexivity|].
  destruct (strings.in_cutset c cutset) eqn:Hc; [discriminate|]. cbn.
  intros Hs. rewrite (IH Hs). destruct s; reflexivity.
Qed.

Lemma Trim_free s cutset :
  strings.free_of s cutset = true -> strings.Trim s cutset = s.
Proof.
  intros Hs. unfold strings.Trim. rewrite (TrimLeft_free _ _ Hs).
  now apply TrimRight_free.
Qed.

Lemma free_of_uint d :
  strings.free_of (DecimalString.NilEmpty.string_of_uint d) rewards.quote = true.
Proof.
  induction d; cbn; auto.
Qed.

(** The decimal text of a number has no double quote in it. *)
Lemma String_free x : strings.free_of (rewards.String_ x) rewards.quote = true.
Proof.
  unfold rewards.String_, DecimalString.NilZero.string_of_int,
    DecimalString.NilZero.string_of_uint.
  destruct (Z.to_int x) as [d|d]; destruct d; cbn; auto using free_of_uint.
Qed.

End TrimFacts.

Section RewardsFacts.

Context `{R : rewards.Library}.

Local Open Scope string_scope.

(** X20. Decoding what [MarshalJSON] encodes gives the number back,
    whatever the receiver held, as soon as the parser of [big.Int] reads
    the decimal text of that number as that number: the quotes that the
    encoder puts around the text are exactly what the decoder strips. *)
Theorem QuotedBigInt_round_trip (b x : rewards.QuotedBigInt) :
  rewards.SetString0 (rewards.String_ x) = Some x ->
  rewards.UnmarshalJSON b (fst (rewards.MarshalJSON x)) = (x, None)
  /\ snd (rewards.MarshalJSON x) = None.
Proof.
  intros Hparse. split; [|reflexivity].
  unfold rewards.UnmarshalJSON, rewards.MarshalJSON. cbn [fst].
  assert (Ht : strings.Trim (rewards.quote ++ rewards.String_ x ++ rewards.quote)
                 rewards.quote = rewards.String_ x).
  { change (rewards.quote ++ rewards.String_ x ++ rewards.quote)
      with (String "034"%char (rewards.String_ x ++ String "034"%char "")).
    rewrite Trim_cons_cut by reflexivity.
    rewrite Trim_app_cut by reflexivity.
    apply Trim_free, String_free. }
  rewrite Ht, Hparse. reflexivity.
Qed.

(** X21. [UnmarshalJSON] does not care how many double quotes surround
    its input, none included: a quote more in front or at the end changes
    neither the number it stores nor the error it returns. So the bare
    number, the quoted number and the number quoted twice all decode
    alike, and on failure the receiver is left as it was. *)
Theorem UnmarshalJSON_ignores_quotes (b : rewards.QuotedBigInt) (p : string) :
  rewards.UnmarshalJSON b (rewards.quote ++ p) = rewards.UnmarshalJSON b p
  /\ rewards.UnmarshalJSON b (p ++ rewards.quote) = rewards.UnmarshalJSON b p
  /\ (snd (rewards.UnmarshalJSON b p) <> None ->
      fst (rewards.UnmarshalJSON b p) = b).
Proof.
  unfold rewards.UnmarshalJSON. split; [|split].
  - change (rewards.quote ++ p) with (String "034"%char p).
    now rewrite Trim_cons_cut by reflexivity.
  - change (p ++ rewards.quote) with (p ++ String "034"%char "").
    now rewrite Trim_app_cut by reflexivity.
  - destruct (rewards.SetString0 (strings.Trim p rewards.quote)); cbn;
      intros H; [exfalso; apply H|]; reflexivity.
Qed.

Lemma fold_append_map {A B : Type} (f : A -> B) (l : list A) (acc : list B) :
  fold_left (fun proof x => (proof ++ [f x])%list) l acc = (acc ++ map f l)%list.
Proof.
  revert acc. induction l as [|x l IH]; intros acc; cbn.
  - now rewrite app_nil_r.
  - now rewrite IH, <- app_assoc.
Qed.

(** X22. [GetMerkleProof] never fails: it returns the hash of every proof
    level, one for one and in the same order, so as many hashes as there
    are levels, and none for an empty proof. *)
Theorem GetMerkleProof_maps (n : rewards.NodeRewardsInfo) :
  rewards.GetMerkleProof n = (map rewards.HexToHash (rewards.MerkleProof n), None)
  /\ length (fst (rewards.GetMerkleProof n)) = length (rewards.MerkleProof n)
  /\ (rewards.MerkleProof n = [] -> fst (rewards.GetMerkleProof n) = []).
Proof.
  unfold rewards.GetMerkleProof. rewrite fold_append_map. cbn [app fst].
  split; [reflexivity|]. split; [apply length_map|].
  intros ->. reflexivity.
Qed.

End RewardsFacts.

(** * Configuring the service from the command line *)

Section CliFacts.

Context `{T : cli.Terminal}.

Lemma promptParams_spec clientParams :
  forall params s,
  exists evs,
    cli.events (snd (cli.promptParams clientParams params s)) = cli.events s ++ evs
    /\ cli.terminal_only evs
    /\ length (filter cli.is_prompting evs) = length clientParams
    /\ map cli.UserEnv (fst (cli.promptParams clientParams params s))
       = map cli.UserEnv params ++ map cli.Env clientParams
    /\ firstn (length params) (fst (cli.promptParams clientParams params s)) = params.
Proof.
  induction clientParams as [|param rest IH]; intros params s.
  - exists []. cbn. rewrite !app_nil_r, firstn_all. repeat split. constructor.
  - cbn [cli.promptParams]. unfold cli.bind, cli.emit, cli.io. cbn.
    destruct (cli.Prompt _ _ _ (cli.outside s)) as [value w]. cbn.
    match goal with
    | |- context [cli.promptParams rest ?acc ?st] =>
        destruct (IH acc st) as (evs & Hev & Hterm & Hcount & Henv & Hfirst)
    end.
    cbn [cli.events] in Hev.
    eexists (_ :: evs). rewrite Hev, <- app_assoc. split; [reflexivity|].
    split; [constructor; [split; reflexivity | exact Hterm]|].
    split; [cbn; now rewrite Hcount|].
    split.
    + rewrite Henv, map_app, <- app_assoc. reflexivity.
    + rewrite length_app in Hfirst. cbn [length] in Hfirst.
      apply (f_equal (firstn (length params))) in Hfirst.
      rewrite firstn_firstn, Nat.min_l in Hfirst by lia.
      rewrite Hfirst, firstn_app, Nat.sub_diag, firstn_all. cbn.
      now rewrite app_nil_r.
Qed.

(** X23. With no client option on offer [configureChain] fails with an
    error that names the chain, asks nothing, prints nothing and leaves
    both chains as they were. *)
Theorem configureChain_no_options globalChain userChain chainName s :
  cli.Options globalChain = [] ->
  cli.configureChain globalChain userChain chainName s
  = (Returns (globalChain, userChain,
              Some (Errorf ("There are no available " ++ chainName
                              ++ " client options")%string)),
     s).
Proof.
  intros Hopts. unfold cli.configureChain. rewrite Hopts. reflexivity.
Qed.

(** X24. When the user picks one of the options on offer and the chain
    knows the client picked, [configureChain] returns without error: both
    chains have that option's ID selected, the global chain is otherwise
    untouched, and the user chain gets exactly one parameter per parameter
    of the client, with the same environment names in the same order,
    after one prompt for each. *)
Theorem configureChain_selects globalChain userChain chainName s
    selected clientName w option client :
  cli.Options globalChain <> [] ->
  cli.Select ("Which " ++ chainName ++ " client would you like to run?")%string
    (map cli.OptionName (cli.Options globalChain)) (cli.outside s)
  = (selected, clientName, w) ->
  0 <= selected ->
  nth_error (cli.Options globalChain) (Z.to_nat selected) = Some option ->
  cli.GetSelectedClient (cli.with_Selected (cli.ID option) globalChain) = Some client ->
  exists params s' evs,
    cli.configureChain globalChain userChain chainName s
    = (Returns (cli.with_Selected (cli.ID option) globalChain,
                cli.with_Params params (cli.with_Selected (cli.ID option) userChain),
                None), s')
    /\ map cli.UserEnv params = map cli.Env (cli.OptionParams client)
    /\ length params = length (cli.OptionParams client)
    /\ cli.events s' = cli.events s ++ evs
    /\ length (filter cli.is_prompting evs) = S (length (cli.OptionParams client))
    /\ cli.terminal_only evs.
Proof.
  intros Hne Hsel Hpos Hnth Hclient. unfold cli.configureChain.
  assert (Hlen : (length (cli.Options globalChain) =? 0)%nat = false)
    by (destruct (cli.Options globalChain); [contradiction | reflexivity]).
  rewrite Hlen. unfold cli.Println, cli.bind, cli.emit, cli.io, cli.ret.
  cbn [cli.outside cli.events]. rewrite Hsel.
  destruct (selected <? 0) eqn:Hlt; [apply Z.ltb_lt in Hlt; lia|].
  rewrite Hnth, Hclient. cbn [cli.outside cli.events].
  match goal with
  | |- context [cli.promptParams _ [] ?st] =>
      destruct (promptParams_spec (cli.OptionParams client) [] st)
        as (evs & Hev & Hterm & Hcount & Henv & _);
      destruct (cli.promptParams (cli.OptionParams client) [] st) as [params s'] eqn:Hpp
  end.
  cbn [fst snd cli.events] in *.
  exists params, s'. eexists. split; [reflexivity|].
  split; [exact Henv|].
  split; [rewrite <- (length_map cli.UserEnv), Henv; apply length_map|].
  rewrite Hev, <- !app_assoc. split; [reflexivity|].
  split.
  - cbn. now rewrite Hcount.
  - repeat (constructor; [split; reflexivity|]). exact Hterm.
Qed.

(** The events of [configureChain] are all events of the terminal. *)
Lemma configureChain_events globalChain userChain chainName s :
  exists evs,
    cli.events (snd (cli.configureChain globalChain userChain chainName s))
    = cli.events s ++ evs
    /\ cli.terminal_only evs.
Proof.
  unfold cli.configureChain.
  destruct (length (cli.Options globalChain) =? 0)%nat.
  - exists []. cbn. rewrite app_nil_r. split; [reflexivity | constructor].
  - unfold cli.Println, cli.bind, cli.emit, cli.io, cli.ret. cbn [cli.outside cli.events].
    destruct (cli.Select _ _ (cli.outside s)) as [[selected clientName] w].
    destruct (if selected <? 0 then None else _) as [option|].
    + destruct (cli.GetSelectedClient _) as [client|].
      * match goal with
        | |- context [cli.promptParams _ [] ?st] =>
            destruct (promptParams_spec (cli.OptionParams client) [] st)
              as (evs & Hev & Hterm & _);
            destruct (cli.promptParams (cli.OptionParams client) [] st) as [params s'']
        end.
        cbn [fst snd cli.events] in *. eexists. rewrite Hev, <- !app_assoc.
        split; [reflexivity|].
        repeat (constructor; [split; reflexivity|]). exact Hterm.
      * cbn. eexists. rewrite <- !app_assoc. split; [reflexivity|].
        repeat (constructor; [split; reflexivity|]). constructor.
    + cbn. eexists. split; [reflexivity|].
      repeat (constructor; [split; reflexivity|]). constructor.
Qed.

Lemma terminal_only_app evs1 evs2 :
  cli.terminal_only evs1 -> cli.terminal_only evs2 -> cli.terminal_only (evs1 ++ evs2).
Proof. intros H1 H2. apply Forall_app. now split. Qed.

(** X25. [configureService] closes the service client exactly once, as its
    last act, on every way out once it has the client: after a failed
    load, after a failed or panicking [configureChain], after a failed or
    successful save. Without a client it does nothing at all. The user
    configuration is saved at most once, after everything asked of the
    terminal; when nothing is saved the function does not return nil, and
    the closing line is printed only after a save that succeeded. *)
Theorem configureService_closes_once c s :
  match cli.GetRocketPoolClient c (cli.outside s) with
  | (inr err, w) =>
      cli.configureService c s
      = (Returns (Some err), {| cli.outside := w; cli.events := cli.events s |})
  | (inl rp, _) =>
      exists out s' pre tail,
        cli.configureService c s = (out, s')
        /\ cli.events s' = cli.events s ++ pre ++ tail ++ [cli.Closing]
        /\ cli.terminal_only pre
        /\ (tail = []
            \/ (exists userConfig err,
                  tail = [cli.Saving userConfig] /\ out = Returns (Some err))
            \/ (exists userConfig,
                  tail = [cli.Saving userConfig;
                          cli.Printed ("Done! Run 'rocketpool service start' to apply new configuration settings."
                                         ++ cli.newline)%string]
                  /\ out = Returns None))
        /\ (tail = [] -> out <> Returns None)
  end.
Proof.
  destruct (cli.GetRocketPoolClient c (cli.outside s)) as [[rp|err] w0] eqn:Hg.
  - unfold cli.configureService, cli.bind at 1, cli.io at 1. rewrite Hg.
    unfold cli.bind at 1. unfold cli.bind at 1, cli.emit at 1, cli.io at 1.
    cbn [cli.outside cli.events].
    destruct (cli.LoadGlobalConfig rp w0) as [[globalConfig [err|]] w1].
    + unfold cli.bind, cli.emit, cli.io, cli.ret. cbn.
      eexists _, _, [cli.Loading], []. split; [reflexivity|]. cbn [cli.events].
      rewrite <- !app_assoc. split; [reflexivity|].
      split; [repeat constructor|]. split; [left; reflexivity|]. discriminate.
    + unfold cli.bind at 1.
      match goal with
      | |- context [cli.configureChain ?g ?u ?nm ?st] =>
          destruct (configureChain_events g u nm st) as (evs1 & Hev1 & Ht1);
          destruct (cli.configureChain g u nm st) as [r1 s1]
      end.
      cbn [snd cli.events] in Hev1.
      assert (Hpre1 : cli.events s1 = cli.events s ++ (cli.Loading :: evs1))
        by (rewrite Hev1, <- app_assoc; reflexivity).
      assert (Htp1 : cli.terminal_only (cli.Loading :: evs1))
        by (constructor; [split; reflexivity | exact Ht1]).
      clear Hev1.
      destruct r1 as [[[global1 user1] [err|]]| |];
        try (unfold cli.bind, cli.emit, cli.io, cli.ret; cbn;
             eexists _, _, (cli.Loading :: evs1), []; split; [reflexivity|];
             cbn [cli.events]; rewrite Hpre1, <- !app_assoc;
             split; [reflexivity|]; split; [exact Htp1|];
             split; [left; reflexivity|]; discriminate).
      unfold cli.bind at 1.
      match goal with
      | |- context [cli.configureChain ?g ?u ?nm s1] =>
          destruct (configureChain_events g u nm s1) as (evs2 & Hev2 & Ht2);
          destruct (cli.configureChain g u nm s1) as [r2 s2]
      end.
      cbn [snd] in Hev2.
      assert (Hpre2 : cli.events s2 = cli.events s ++ ((cli.Loading :: evs1) ++ evs2))
        by (rewrite Hev2, Hpre1, <- app_assoc; reflexivity).
      assert (Htp2 : cli.terminal_only ((cli.Loading :: evs1) ++ evs2))
        by (apply terminal_only_app; assumption).
      clear Hev2 Hpre1.
      destruct r2 as [[[global2 user2] [err|]]| |];
        try (unfold cli.bind, cli.emit, cli.io, cli.ret; cbn;
             eexists _, _, ((cli.Loading :: evs1) ++ evs2), []; split; [reflexivity|];
             cbn [cli.events]; rewrite Hpre2, <- !app_assoc;
             split; [reflexivity|]; split; [exact Htp2|];
             split; [left; reflexivity|]; discriminate).
      unfold cli.Println, cli.bind, cli.emit, cli.io, cli.ret.
      cbn [cli.outside cli.events].
      destruct (cli.SaveUserConfig rp _ (cli.outside s2)) as [[err|] w3]; cbn.
      * eexists _, _, ((cli.Loading :: evs1) ++ evs2), [_]. split; [reflexivity|].
        cbn [cli.events]. rewrite Hpre2, <- !app_assoc. split; [reflexivity|].
        split; [exact Htp2|].
        split; [right; left; eexists _, _; split; reflexivity|]. discriminate.
      * eexists _, _, ((cli.Loading :: evs1) ++ evs2), [_; _]. split; [reflexivity|].
        cbn [cli.events]. rewrite Hpre2, <- !app_assoc. split; [reflexivity|].
        split; [exact Htp2|].
        split; [right; right; eexists; split; reflexivity|]. discriminate.
  - unfold cli.configureService, cli.bind at 1, cli.io at 1. rewrite Hg. reflexivity.
Qed.

(** X26. [configureChain] panics when the terminal hands back an index
    that is not one of the options, right after the selection and before
    anything is printed, and it panics when the chain does not know the
    client just selected. *)
Theorem configureChain_panics globalChain userChain chainName s selected clientName w :
  cli.Options globalChain <> [] ->
  cli.Select ("Which " ++ chainName ++ " client would you like to run?")%string
    (map cli.OptionName (cli.Options globalChain)) (cli.outside s)
  = (selected, clientName, w) ->
  (selected < 0 \/ Z.of_nat (length (cli.Options globalChain)) <= selected ->
   cli.configureChain globalChain userChain chainName s
   = (Panics,
      {| cli.outside := w;
         cli.events := cli.events s ++
           [cli.Selecting
              ("Which " ++ chainName ++ " client would you like to run?")%string
              (map cli.OptionName (cli.Options globalChain))] |}))
  /\
  (forall option,
     0 <= selected ->
     nth_error (cli.Options globalChain) (Z.to_nat selected) = Some option ->
     cli.GetSelectedClient (cli.with_Selected (cli.ID option) globalChain) = None ->
     fst (cli.configureChain globalChain userChain chainName s) = Panics).
Proof.
  intros Hne Hsel.
  assert (Hlen : (length (cli.Options globalChain) =? 0)%nat = false)
    by (destruct (cli.Options globalChain); [contradiction | reflexivity]).
  split.
  - intros Hrange. unfold cli.configureChain. rewrite Hlen.
    unfold cli.Println, cli.bind, cli.emit, cli.io, cli.ret.
    cbn [cli.outside cli.events]. rewrite Hsel.
    destruct (selected <? 0) eqn:Hlt; [reflexivity|].
    apply Z.ltb_ge in Hlt. destruct Hrange as [Hneg|Hbig]; [lia|].
    assert (Hnone : nth_error (cli.Options globalChain) (Z.to_nat selected) = None)
      by (apply nth_error_None; lia).
    rewrite Hnone. reflexivity.
  - intros option Hpos Hnth Hclient. unfold cli.configureChain. rewrite Hlen.
    unfold cli.Println, cli.bind, cli.emit, cli.io, cli.ret.
    cbn [cli.outside cli.events]. rewrite Hsel.
    destruct (selected <? 0) eqn:Hlt; [apply Z.ltb_lt in Hlt; lia|].
    rewrite Hnth, Hclient. reflexivity.
Qed.

End CliFacts.

(** * The further theorems at work *)

(** A reverted call on a healthy primary: the error comes back alone. *)
Lemma dispatch_error_shape_witness :
  (None : iface (L := lab)) = None
  /\ isDisconnected (L := lab) (ClientError "execution reverted") = false
  /\ ((ClientError "execution reverted" : error (L := lab))
        = Errorf "no execution clients were ready"
      \/ (ClientError "execution reverted" : error (L := lab))
         = Errorf "all execution clients failed"
      \/ exists client w0 r,
           callContract client w0
           = (r, Some (ClientError "execution reverted"),
              world (snd (runFunction_fuel 2 callContract all_well)))).
Proof.
  exact (dispatch_error_shape (L := lab) 0 callContract all_well None
           (ClientError "execution reverted")
           (snd (runFunction_fuel 2 callContract all_well)) eq_refl).
Defined.

(** The primary down, the fallback healthy: the answer is the fallback's. *)
Lemma dispatch_success_shape_witness :
  exists client w0 evs,
    blockNumber client w0
    = (Some (Uint64 12345), None,
       world (snd (runFunction_fuel 2 blockNumber primary_down)))
    /\ trace (snd (runFunction_fuel 2 blockNumber primary_down))
       = trace primary_down ++ evs ++ [Invoke client]
    /\ mgr (snd (runFunction_fuel 2 blockNumber primary_down))
       = with_primaryReady false (mgr primary_down)
    /\ client = Some Fallback.
Proof.
  exact (dispatch_success_shape (L := lab) 0 blockNumber primary_down
           (Some (Uint64 12345))
           (snd (runFunction_fuel 2 blockNumber primary_down)) eq_refl).
Defined.

(** No fallback and the primary down. *)
Lemma dispatch_primary_disconnected_no_fallback_witness :
  fst (runFunction_fuel 2 blockNumber Lab2.primary_down_alone)
  = Some (None, Some (Errorf "no execution clients were ready"))
  /\ primaryReady (mgr (snd (runFunction_fuel 2 blockNumber Lab2.primary_down_alone))) = false
  /\ fallbackReady (mgr (snd (runFunction_fuel 2 blockNumber Lab2.primary_down_alone))) = false.
Proof.
  destruct (dispatch_primary_disconnected_no_fallback (L := lab) 0 blockNumber
              Lab2.primary_down_alone None (ClientError refused) (net Down Healthy)
              eq_refl eq_refl eq_refl eq_refl) as (Hrun & Hp & Hf & _).
  rewrite Hrun. split; [reflexivity|]. split; [exact Hp | exact Hf].
Defined.

(** Both nodes down: the dispatch after the failed one calls nothing. *)
Lemma dispatch_fails_fast_after_total_failure_witness :
  runFunction_fuel 1 callContract (snd (runFunction_fuel 2 blockNumber both_down))
  = (Some (None, Some (Errorf "no execution clients were ready")),
     snd (runFunction_fuel 2 blockNumber both_down)).
Proof.
  exact (dispatch_fails_fast_after_total_failure (L := lab) 0 blockNumber both_down
           None (ClientError refused) (net Down Down)
           None (ClientError refused) (net Down Down)
           eq_refl eq_refl eq_refl eq_refl eq_refl eq_refl 0%nat callContract).
Defined.

(** Both handles configured: nothing nil is ever called or probed. *)
Lemma handles_never_nil_witness :
  handles_ok (mgr (snd (runFunction_fuel 2 blockNumber primary_down)))
  /\ handles_ok (mgr (snd (CheckStatus primary_down)))
  /\ (exists evs,
        trace (snd (runFunction_fuel 2 blockNumber primary_down))
        = trace primary_down ++ evs
        /\ Forall (fun client => isNil client = false) (invoked evs))
  /\ (exists evs,
        trace (snd (CheckStatus primary_down)) = trace primary_down ++ evs
        /\ Forall (fun client => isNil client = false) (probed evs)).
Proof.
  apply (handles_never_nil (L := lab) 0 blockNumber primary_down).
  split; [reflexivity | intros _; reflexivity].
Defined.

(** A refresh of a stale primary and a headerless fallback, from flags
    both clear and from flags both set. *)
Lemma refresh_ignores_old_flags_witness :
  CheckStatus (start (manager false false false) (net Stale NoHeader))
  = CheckStatus stale_and_headerless.
Proof.
  exact (refresh_ignores_old_flags (L := lab) stale_and_headerless false false eq_refl).
Defined.

(** A healthy node is synced and working, without message; a node that is
    down is neither, with a message. *)
Lemma probe_status_coherent_witness :
  (api.IsWorking (fst (checkClientStatus (Some Primary) all_well)) = true
   /\ api.Error (fst (checkClientStatus (Some Primary) all_well)) = EmptyString
   /\ api.SyncProgress (fst (checkClientStatus (Some Primary) all_well)) = float64.zero)
  /\
  (api.IsSynced (fst (checkClientStatus (Some Primary) both_down)) = false
   /\ api.Error (fst (checkClientStatus (Some Primary) both_down)) <> EmptyString
   /\ api.SyncProgress (fst (checkClientStatus (Some Primary) both_down)) = float64.zero).
Proof.
  split.
  - exact (proj1 (probe_status_coherent (L := lab) (Some Primary) all_well) eq_refl).
  - exact (proj1 (proj2 (probe_status_coherent (L := lab) (Some Primary) both_down))
             eq_refl).
Defined.

(** A node without header hands back a nil subscription: the operation
    panics. With a library that never does so, it returns. *)
Lemma subscribe_panics_on_nil_subscription_witness :
  fst (SubscribeFilterLogs (E := Lab2.ethclient) 1 tt 0 tt Lab2.primary_headerless) = Panics
  /\ exists sub err s',
       SubscribeFilterLogs (E := Lab2.ethclient_safe) 2 tt 0 tt Lab2.primary_headerless
       = (Returns (sub, err), s')
       /\ match err with
          | Some _ => sub = None
          | None =>
              exists client w0,
                Lab2.subscribe_always client tt 0 tt w0 = (sub, None, world s')
          end.
Proof.
  split.
  - rewrite (proj1 (subscribe_panics_on_nil_subscription (E := Lab2.ethclient)
                      0 Lab2.primary_headerless tt 0 tt)
               (net NoHeader Healthy) eq_refl eq_refl).
    reflexivity.
  - apply (proj2 (subscribe_panics_on_nil_subscription (E := Lab2.ethclient_safe)
                    0 Lab2.primary_headerless tt 0 tt)).
    intros [c|] w0 w; cbn; [destruct (w0 c)|]; discriminate.
Defined.

(** Two local clients: the manager has both handles and both flags set. *)
Lemma constructor_result_witness :
  exists p,
    fst (NewExecutionClientManager (D := Lab2.dialer) Lab2.local_with_fallback (net Healthy Healthy))
    = (Some p, None)
    /\ primaryEcUrl p = "http://eth1:8545"
    /\ fallbackEcUrl p = "http://eth1-fallback:8546"
    /\ primaryReady p = true
    /\ fallbackReady p = negb (isNil (fallbackEc p))
    /\ handles_ok p
    /\ ignoreSyncCheck p = false.
Proof.
  pose proof (constructor_result (D := Lab2.dialer) Lab2.local_with_fallback (net Healthy Healthy))
    as H.
  destruct (fst (NewExecutionClientManager (D := Lab2.dialer) Lab2.local_with_fallback (net Healthy Healthy)))
    as [[p|] [err|]] eqn:Hnew; try contradiction; try discriminate Hnew.
  destruct H as (H1 & H2 & H3 & H4 & _).
  exists p. split; [reflexivity|].
  inversion Hnew; subst p.
  split; [reflexivity|]. split; [reflexivity|].
  split; [exact H1|]. split; [exact H2|]. split; [exact H3 | exact H4].
Defined.

(** An external primary that cannot be dialled, and an external fallback
    that cannot. *)
Lemma constructor_errors_witness :
  NewExecutionClientManager (D := Lab2.dialer) Lab2.external_unreachable (net Healthy Healthy)
  = (None,
     Some (Errorf "error connecting to primary EC at [http://nowhere:8545]: dial unix: missing address"),
     net Healthy Healthy)
  /\ NewExecutionClientManager (D := Lab2.dialer) Lab2.fallback_unreachable (net Healthy Healthy)
     = (None,
        Some (Errorf "error connecting to fallback EC at [http://nowhere:8545]: dial unix: missing address"),
        net Healthy Healthy).
Proof.
  split.
  - exact (proj1 (constructor_errors (D := Lab2.dialer) Lab2.external_unreachable
                    (net Healthy Healthy))
             (ClientError "dial unix: missing address") (net Healthy Healthy) eq_refl).
  - refine (proj2 (constructor_errors (D := Lab2.dialer) Lab2.fallback_unreachable
                     (net Healthy Healthy))
              Primary (net Healthy Healthy)
              (ClientError "dial unix: missing address") (net Healthy Healthy)
              eq_refl _ eq_refl).
    discriminate.
Defined.

(** Two dispatches in a row with the primary down. *)
Lemma calls_only_demote_witness :
  Bool.le (primaryReady (mgr (acts [Call blockNumber; Call callContract] primary_down)))
          (primaryReady (mgr primary_down))
  /\ Bool.le (fallbackReady (mgr (acts [Call blockNumber; Call callContract] primary_down)))
             (fallbackReady (mgr primary_down)).
Proof.
  exact (calls_only_demote (L := lab) [Call blockNumber; Call callContract]
           primary_down eq_refl).
Defined.

(** The numbers 42 and -7 through the encoder and back. *)
Lemma QuotedBigInt_round_trip_witness :
  (rewards.UnmarshalJSON (H := Lab2.decimal) 0 (fst (rewards.MarshalJSON 42)) = (42, None)
   /\ snd (rewards.MarshalJSON 42) = None)
  /\ (rewards.UnmarshalJSON (H := Lab2.decimal) 0 (fst (rewards.MarshalJSON (-7))) = (-7, None)
      /\ snd (rewards.MarshalJSON (-7)) = None).
Proof.
  split.
  - exact (QuotedBigInt_round_trip (R := Lab2.decimal) 0 42 eq_refl).
  - exact (QuotedBigInt_round_trip (R := Lab2.decimal) 0 (-7) eq_refl).
Defined.

(** A chain without options. *)
Lemma configureChain_no_options_witness :
  cli.configureChain (T := Lab2.terminal) cli.zeroChain cli.zeroChain "Eth 2.0"
    (Lab2.asking Lab2.terminal 0)
  = (Returns (cli.zeroChain, cli.zeroChain,
              Some (Errorf "There are no available Eth 2.0 client options")),
     Lab2.asking Lab2.terminal 0).
Proof.
  exact (configureChain_no_options (T := Lab2.terminal) cli.zeroChain cli.zeroChain
           "Eth 2.0" (Lab2.asking Lab2.terminal 0) eq_refl).
Defined.

(** The user picks Geth, which has two parameters. *)
Lemma configureChain_selects_witness :
  exists params s' evs,
    cli.configureChain (T := Lab2.terminal) Lab2.eth1Chain cli.zeroChain "Eth 1.0"
      (Lab2.asking Lab2.terminal 0)
    = (Returns (cli.with_Selected "geth" Lab2.eth1Chain,
                cli.with_Params params (cli.with_Selected "geth" cli.zeroChain),
                None), s')
    /\ map cli.UserEnv params = ["ETHSTATS_LABEL"; "INFURA_PROJECT_ID"]
    /\ length params = 2%nat
    /\ cli.events s' = cli.events (Lab2.asking Lab2.terminal 0) ++ evs
    /\ length (filter cli.is_prompting evs) = 3%nat
    /\ cli.terminal_only evs.
Proof.
  refine (configureChain_selects (T := Lab2.terminal) Lab2.eth1Chain cli.zeroChain "Eth 1.0"
            (Lab2.asking Lab2.terminal 0) 0 "Geth" 0 Lab2.geth Lab2.geth _ eq_refl _ eq_refl eq_refl).
  - discriminate.
  - lia.
Defined.

(** The user picks option 5 of two; and a chain that does not find the
    client picked. *)
Lemma configureChain_panics_witness :
  fst (cli.configureChain (T := Lab2.terminal) Lab2.eth1Chain cli.zeroChain "Eth 1.0"
         (Lab2.asking Lab2.terminal 5))
  = Panics
  /\ fst (cli.configureChain (T := Lab2.forgetful_terminal) Lab2.eth1Chain cli.zeroChain
            "Eth 1.0" (Lab2.asking Lab2.forgetful_terminal 1))
     = Panics.
Proof.
  assert (Hne : cli.Options Lab2.eth1Chain <> []) by discriminate.
  split.
  - rewrite (proj1 (configureChain_panics (T := Lab2.terminal) Lab2.eth1Chain cli.zeroChain
                      "Eth 1.0" (Lab2.asking Lab2.terminal 5) 5 EmptyString 5 Hne eq_refl)).
    + reflexivity.
    + right. cbn. lia.
  - refine (proj2 (configureChain_panics (T := Lab2.forgetful_terminal) Lab2.eth1Chain
                     cli.zeroChain "Eth 1.0" (Lab2.asking Lab2.forgetful_terminal 1)
                     1 "Infura" 1 Hne eq_refl)
              Lab2.infura _ eq_refl eq_refl).
    lia.
Defined.


(** A dispatch and a refresh, one after the other. *)
Lemma life_keeps_handles_witness :
  same_but_flags (mgr (acts [Call blockNumber; Refresh] primary_down)) (mgr primary_down)
  /\ handles_ok (mgr (acts [Call blockNumber; Refresh] primary_down)).
Proof.
  destruct (life_keeps_handles (L := lab) [Call blockNumber; Refresh] primary_down)
    as [Hsame Hok].
  split; [exact Hsame|]. apply Hok. split; [reflexivity | intros _; reflexivity].
Defined.

(** Text that is no number leaves the receiver alone. *)
Lemma UnmarshalJSON_ignores_quotes_witness :
  rewards.UnmarshalJSON (H := Lab2.decimal) 5 (rewards.quote ++ "12")
  = rewards.UnmarshalJSON (H := Lab2.decimal) 5 "12"
  /\ fst (rewards.UnmarshalJSON (H := Lab2.decimal) 5 "twelve") = 5.
Proof.
  destruct (UnmarshalJSON_ignores_quotes (R := Lab2.decimal) 5 "12") as (Hfront & _ & _).
  destruct (UnmarshalJSON_ignores_quotes (R := Lab2.decimal) 5 "twelve") as (_ & _ & Hfail).
  split; [exact Hfront|]. apply Hfail. discriminate.
Defined.

(** A proof of two levels, and an empty one. *)
Lemma GetMerkleProof_maps_witness :
  fst (rewards.GetMerkleProof (H := Lab2.decimal)
         {| rewards.RewardNetwork := 0; rewards.CollateralRpl := None;
            rewards.OracleDaoRpl := None; rewards.SmoothingPoolEth := None;
            rewards.MerkleData := []; rewards.MerkleProof := ["0xab"; "0xcd"] |})
  = ["0xab"; "0xcd"]
  /\ fst (rewards.GetMerkleProof (H := Lab2.decimal)
            {| rewards.RewardNetwork := 0; rewards.CollateralRpl := None;
               rewards.OracleDaoRpl := None; rewards.SmoothingPoolEth := None;
               rewards.MerkleData := []; rewards.MerkleProof := [] |})
     = [].
Proof.
  split.
  - rewrite (proj1 (GetMerkleProof_maps (R := Lab2.decimal) _)). reflexivity.
  - apply (GetMerkleProof_maps (R := Lab2.decimal)). reflexivity.
Defined.

(** The service is configured: Geth for the first chain, no option for the
    second, so nothing is saved and the client is closed. *)
Lemma configureService_closes_once_witness :
  exists out s' pre tail,
    cli.configureService (T := Lab2.terminal) tt (Lab2.asking Lab2.terminal 0)
    = (out, s')
    /\ cli.events s' = [] ++ pre ++ tail ++ [cli.Closing]
    /\ cli.terminal_only pre
    /\ (tail = []
        \/ (exists userConfig err,
              tail = [cli.Saving userConfig] /\ out = Returns (Some err))
        \/ (exists userConfig,
              tail = [cli.Saving userConfig;
                      cli.Printed ("Done! Run 'rocketpool service start' to apply new configuration settings."
                                     ++ cli.newline)%string]
              /\ out = Returns None))
    /\ (tail = [] -> out <> Returns None).
Proof.
  exact (configureService_closes_once (T := Lab2.terminal) tt
           (Lab2.asking Lab2.terminal 0)).
Defined.

(** In skip mode a refresh of two healthy nodes and a dispatch leave a
    demoted primary demoted. *)
Lemma skip_mode_never_promotes_witness :
  Bool.le (primaryReady
             (mgr (acts [Refresh; Call blockNumber]
                     (start (manager false true true) (net Healthy Healthy)))))
          false
  /\ Bool.le (fallbackReady
                (mgr (acts [Refresh; Call blockNumber]
                        (start (manager false true true) (net Healthy Healthy)))))
             true.
Proof.
  exact (skip_mode_never_promotes (L := lab) [Refresh; Call blockNumber]
           (start (manager false true true) (net Healthy Healthy)) eq_refl).
Defined.

(** Both flags clear, both nodes healthy: after a refresh the primary is
    called. *)
Lemma refresh_restores_primary_witness :
  exists evs,
    trace (snd (runFunction_fuel 2 blockNumber (snd (CheckStatus none_ready))))
    = trace (snd (CheckStatus none_ready)) ++ evs
    /\ hd_error (invoked evs) = Some (Some Primary).
Proof.
  exact (refresh_restores_primary (L := lab) 0 blockNumber none_ready
           eq_refl eq_refl eq_refl).
Defined.
